(** * Video upload pipeline: a shallow embedding of the upload handler

    The development follows the Go sources of the upload handler
    ([handlerUploadVideo], [getVideoAspectRatio], [processVideoForFastStart],
    [generatePresignedURL], [dbVideoToSignedVideo]).  External collaborators
    (the authentication package, the record store, the media tools, the
    object store, the Go standard library calls whose result depends on the
    outside world) are fields of an environment record; everything the
    handler itself decides is a Rocq function. *)

From Stdlib Require Import ZArith QArith Qabs Floats Uint63 Bool Lia List Ascii String.
From Stdlib Require Import Strings.Byte.
From stdpp Require Import gmap strings list fin_maps.
Import ListNotations.

Local Open Scope string_scope.
Local Open Scope Z_scope.

(** Go's [error] values carry a message; [None] is [nil]. *)
Definition error := string.

(* ===================================================================== *)
(** ** The aspect classifier *)
(* ===================================================================== *)

Module Aspect.

(** [const tolerance = 0.05], converted to float64 where it meets a
    float64 operand: the binary64 value nearest to 1/20. *)
Definition tolerance : float := 0x1.999999999999ap-5%float.

(** [func approx(a, b float64) bool]: both comparisons are strict. *)
Definition approx (a b : float) : bool :=
  PrimFloat.ltb (b - tolerance)%float a && PrimFloat.ltb a (b + tolerance)%float.

(** The constants [16.0/9.0] and [9.0/16.0]: exact quotients rounded once to
    float64, which is what one correctly rounded division computes. *)
Definition sixteen_ninths : float := (16 / 9)%float.
Definition nine_sixteenths : float := (9 / 16)%float.

Definition min_int : Z := -9223372036854775808.

(** [float64(n)] for a Go [int] (64 bits, two's complement): round to
    nearest even.  [of_uint63] covers the magnitudes below 2^63. *)
Definition float64_of_int (z : Z) : float :=
  if z =? min_int then (- 0x1p63)%float
  else if z <? 0 then (- of_uint63 (Uint63.of_Z (- z)))%float
  else of_uint63 (Uint63.of_Z z).

(** The [switch] at the end of [getVideoAspectRatio]. *)
Definition classify_ratio (ratio : float) : string :=
  if approx ratio sixteen_ninths then "landscape"
  else if approx ratio nine_sixteenths then "portrait"
  else "other".

Definition classify (width height : Z) : string :=
  classify_ratio (float64_of_int width / float64_of_int height)%float.

(** [type ffprobeOutput struct { Streams []struct{ Width, Height int } }] *)
Record stream := { Width : Z; Height : Z }.
Record ffprobeOutput := { Streams : list stream }.

(** What the classifier needs from outside: running [ffprobe] on a path
    (standard output, or the error of [cmd.Run]) and [json.Unmarshal] into
    [ffprobeOutput]. *)
Record Probe := {
  ffprobe : string -> string + error;
  json_Unmarshal : string -> ffprobeOutput + error
}.

Definition getVideoAspectRatio (P : Probe) (filePath : string) : string * option error :=
  match ffprobe P filePath with
  | inr err => ("", Some ("failed to run ffprobe: " ++ err))
  | inl out =>
    match json_Unmarshal P out with
    | inr err => ("", Some ("failed to parse ffprobe output: " ++ err))
    | inl parsed =>
      match Streams parsed with
      | [] => ("", Some "no streams found in video")
      | s0 :: _ =>
        let width := Width s0 in
        let height := Height s0 in
        if (width =? 0) || (height =? 0) then ("", Some "invalid width or height")
        else (classify width height, None)
      end
    end
  end.

(** *** Exact arithmetic used to describe the classifier *)


(** Cross-multiplied comparisons of [width/height] with 16/9 -+ 1/20 =
    311/180, 329/180 and with 9/16 -+ 1/20 = 41/80, 49/80. *)
Definition near_landscape (w h : Z) : bool :=
  (311 * h <=? 180 * w) && (180 * w <? 329 * h).
Definition near_portrait (w h : Z) : bool :=
  (41 * h <? 80 * w) && (80 * w <? 49 * h).

(** The same comparisons on machine integers, and a scan of a rectangle of
    dimensions that compares them with the two float64 tests. *)

Definition near_landscapeI (w h : int) : bool :=
  ((311 * h <=? 180 * w) && (180 * w <? 329 * h))%uint63.
Definition near_portraitI (w h : int) : bool :=
  ((41 * h <? 80 * w) && (80 * w <? 49 * h))%uint63.

Definition agreeI (w h : int) : bool :=
  let ratio := (of_uint63 w / of_uint63 h)%float in
  Bool.eqb (approx ratio sixteen_ninths) (near_landscapeI w h)
  && Bool.eqb (approx ratio nine_sixteenths) (near_portraitI w h).

Fixpoint scan_row (h w : int) (n : nat) : bool :=
  match n with
  | O => true
  | S n' => agreeI w h && scan_row h (w + 1)%uint63 n'
  end.

Fixpoint scan_rows (h : int) (m n : nat) : bool :=
  match m with
  | O => true
  | S m' => scan_row h 1%uint63 n && scan_rows (h + 1)%uint63 m' n
  end.

(** Largest width and height covered by the scan. *)
Definition max_dim : Z := 4096.

End Aspect.

(* ===================================================================== *)
(** ** Go library functions the handler computes with *)
(* ===================================================================== *)

Module GoLib.

(** [strings.Count(s, sep)] for a one-byte separator. *)
Fixpoint Count (s : string) (sep : ascii) : nat :=
  match s with
  | EmptyString => 0%nat
  | String c s' => ((if Ascii.eqb c sep then 1 else 0) + Count s' sep)%nat
  end.

(** [strings.Split(s, sep)] for a one-byte separator (both call sites pass
    one: ["/"] and [","]): the pieces between the separators, in order;
    a string without separator is its own single piece. *)
Fixpoint Split (s : string) (sep : ascii) : list string :=
  match s with
  | EmptyString => [EmptyString]
  | String c s' =>
    if Ascii.eqb c sep then EmptyString :: Split s' sep
    else match Split s' sep with
         | piece :: pieces => String c piece :: pieces
         | [] => [String c EmptyString]
         end
  end.

(** [strings.Join(elems, sep)] for a one-byte separator. *)
Fixpoint Join (elems : list string) (sep : ascii) : string :=
  match elems with
  | [] => EmptyString
  | [piece] => piece
  | piece :: rest => piece ++ String sep (Join rest sep)
  end.

(** [make([]byte, n)]: [n] zero bytes. *)
Definition make (n : nat) : list byte := repeat Byte.x00 n.

(** A read into a slice overwrites a prefix of it and keeps its length. *)
Definition read_into (dst src : list byte) : list byte :=
  take (length dst) (src ++ drop (length src) dst).

(** [base64.RawURLEncoding]: the URL alphabet, no padding. *)
Definition encodeURL : string :=
  "ABCDEFGHIJKLMNOPQRSTUVWXYZabcdefghijklmnopqrstuvwxyz0123456789-_".

Definition encode_at (v : N) : ascii :=
  match String.get (N.to_nat v) encodeURL with
  | Some c => c
  | None => "A"%char
  end.

Definition sextet (val : N) (shift : N) : ascii :=
  encode_at (N.land (N.shiftr val shift) 63).

(** [Encoding.EncodeToString]: three bytes make four characters; one or
    two remaining bytes make two or three. *)
Fixpoint EncodeToString (src : list byte) : string :=
  match src with
  | b0 :: b1 :: b2 :: rest =>
    let val := N.lor (N.lor (N.shiftl (Byte.to_N b0) 16) (N.shiftl (Byte.to_N b1) 8))
                     (Byte.to_N b2) in
    String (sextet val 18) (String (sextet val 12) (String (sextet val 6)
      (String (sextet val 0) (EncodeToString rest))))
  | [b0; b1] =>
    let val := N.lor (N.shiftl (Byte.to_N b0) 16) (N.shiftl (Byte.to_N b1) 8) in
    String (sextet val 18) (String (sextet val 12) (String (sextet val 6) EmptyString))
  | [b0] =>
    let val := N.shiftl (Byte.to_N b0) 16 in
    String (sextet val 18) (String (sextet val 12) EmptyString)
  | [] => EmptyString
  end.

End GoLib.

(* ===================================================================== *)
(** ** The upload handler and the presigned view *)
(* ===================================================================== *)

Module Upload.
Import GoLib.

Definition UUID := N.

(** Modelled from the spec: the record type [database.Video] is declared
    outside the sources at hand.  The spec's data model gives it an
    identity, an owning-user identity, a nullable storage reference, a
    nullable thumbnail reference and descriptive fields owned by the record
    store; the handler reads [UserID] and writes [VideoURL]. *)
Record Video := {
  ID : UUID;
  UserID : UUID;
  VideoURL : option string;
  ThumbnailURL : option string;
  Details : string
}.

Definition set_VideoURL (video : Video) (url : string) : Video :=
  {| ID := ID video; UserID := UserID video; VideoURL := Some url;
     ThumbnailURL := ThumbnailURL video; Details := Details video |}.

Record S3Object := { ContentType : string; Body : list byte }.

(** [type apiConfig]: the fields the handler reads. *)
Record apiConfig := { jwtSecret : string; s3Bucket : string }.

(** The request as it arrives: the path value, the headers, and the part
    named [video] of the multipart body (its bytes and its [Content-Type]
    header), or the error [r.FormFile("video")] reports when the body does
    not parse or holds no such part. *)
Record Request := {
  PathValue_videoID : string;
  Header : list (string * string);
  FormFile_video : (list byte * string) + error
}.

(** What the handler and the functions it calls do during a request, in
    order. *)
Inductive Event :=
| RespondError (code : Z) (msg : string)
| RespondJSON (code : Z) (payload : Video)
| CreateTemp (name : string)
| CopyTo (name : string) (data : list byte)
| Remove (name : string)
| RunFfmpeg (input output : string) (ok : bool)
| RunFfprobe (path : string)
| PutObject (bucket key : string) (ok : bool)
| UpdateVideo (video : Video) (ok : bool)
| Presign (bucket key : string).

(** The record store, the local file system, the object store, and the
    events of the request so far. *)
Record St := {
  db : gmap UUID Video;
  fs : gmap string (list byte);
  s3 : gmap (string * string) S3Object;
  log : list Event
}.

Definition boot (db0 : gmap UUID Video) (fs0 : gmap string (list byte))
    (s30 : gmap (string * string) S3Object) : St :=
  {| db := db0; fs := fs0; s3 := s30; log := [] |}.

Definition emit (e : Event) (σ : St) : St :=
  {| db := db σ; fs := fs σ; s3 := s3 σ; log := log σ ++ [e] |}.
Definition with_db (d : gmap UUID Video) (σ : St) : St :=
  {| db := d; fs := fs σ; s3 := s3 σ; log := log σ |}.
Definition with_fs (f : gmap string (list byte)) (σ : St) : St :=
  {| db := db σ; fs := f; s3 := s3 σ; log := log σ |}.
Definition with_s3 (o : gmap (string * string) S3Object) (σ : St) : St :=
  {| db := db σ; fs := fs σ; s3 := o; log := log σ |}.

(** How one run of [ffmpeg] ends: exit status 0 with the output file
    written, or a failure that may leave a partly written output file. *)
Inductive FfmpegRun :=
| Exit0 (output : list byte)
| ExitFailure (err : error) (leftover : option (list byte)).

Inductive CopyRun :=
| Copied
| CopyFailure (err : error) (written : list byte).

(** The collaborators outside the handler.  Each field is the result the
    collaborator gives; the handler decides everything else. *)
Record Env := {
  uuid_Parse : string -> UUID + error;
  GetBearerToken : list (string * string) -> string + error;
  ValidateJWT : string -> string -> UUID + error;
  db_read_failure : option error;
  ParseMediaType : string -> string + error;
  rand_Read : nat -> list byte * option error;
  os_CreateTemp : string -> string -> string + error;
  io_Copy : list byte -> CopyRun;
  ffmpeg : option (list byte) -> FfmpegRun;
  os_Open_failure : option error;
  ffprobe_run : option (list byte) -> string + error;
  json_Unmarshal : string -> Aspect.ffprobeOutput + error;
  s3_PutObject : string -> string -> option error;
  db_UpdateVideo : Video -> option error;
  PresignGetObject : string -> string -> Z -> string + error
}.

Inductive dberror := ErrNoRows | ErrOther (err : error).

(** [http.Status...] *)
Definition StatusOK : Z := 200.
Definition StatusBadRequest : Z := 400.
Definition StatusUnauthorized : Z := 401.
Definition StatusNotFound : Z := 404.
Definition StatusInternalServerError : Z := 500.

Definition respondWithError (code : Z) (msg : string) (σ : St) : St :=
  emit (RespondError code msg) σ.
Definition respondWithJSON (code : Z) (payload : Video) (σ : St) : St :=
  emit (RespondJSON code payload) σ.

Definition GetVideo (env : Env) (σ : St) (id : UUID) : Video + dberror :=
  match db_read_failure env with
  | Some err => inr (ErrOther err)
  | None => match db σ !! id with
            | Some video => inl video
            | None => inr ErrNoRows
            end
  end.

Definition UpdateVideo_db (env : Env) (video : Video) (σ : St) : option error * St :=
  match db_UpdateVideo env video with
  | Some err => (Some err, emit (UpdateVideo video false) σ)
  | None => (None, with_db (<[ID video := video]> (db σ)) (emit (UpdateVideo video true) σ))
  end.

Definition os_Remove (name : string) (σ : St) : St :=
  with_fs (delete name (fs σ)) (emit (Remove name) σ).

Definition write_file (name : string) (data : list byte) (σ : St) : St :=
  with_fs (<[name := data]> (fs σ)) σ.

(** [defaultMaxMemory] of [net/http]: 32 MB. *)
Definition defaultMaxMemory : Z := Z.shiftl 32 20.

(** [r.FormFile("video")].  On its first use [net/http] parses the whole
    body with [ParseMultipartForm(defaultMaxMemory)].  [mime/multipart] keeps
    a file part of at most that many bytes in memory; a longer one it writes
    to a file it makes with [os.CreateTemp("", "multipart-")], and the parse
    fails when that file cannot be made.  The server removes the file only
    after the handler has returned, so it is there for the rest of the
    run. *)
Definition FormFile (env : Env) (r : Request) (σ : St)
    : ((list byte * string) + error) * St :=
  match FormFile_video r with
  | inr err => (inr err, σ)
  | inl (file, contentType) =>
    if defaultMaxMemory <? Z.of_nat (length file)
    then match os_CreateTemp env "" "multipart-" with
         | inr err => (inr err, σ)
         | inl name => (inl (file, contentType), write_file name file σ)
         end
    else (inl (file, contentType), σ)
  end.

(** [15*time.Minute], in nanoseconds. *)
Definition fifteen_minutes : Z := 15 * 60 * 1000000000.

Definition generatePresignedURL (env : Env) (bucket key : string) (expireTime : Z)
    (σ : St) : (string * option error) * St :=
  let σ := emit (Presign bucket key) σ in
  match PresignGetObject env bucket key expireTime with
  | inr err => (("", Some ("failed to generate presigned URL: " ++ err)), σ)
  | inl url => ((url, None), σ)
  end.

Definition format_error : error := "invalid video URL format; expected 'bucket,key'".

Definition dbVideoToSignedVideo (env : Env) (video : Video) (σ : St)
    : (Video * option error) * St :=
  match VideoURL video with
  | None => ((video, None), σ)
  | Some url =>
    match Split url ","%char with
    | [bucket; key] =>
      let '((signedURL, err), σ) := generatePresignedURL env bucket key fifteen_minutes σ in
      match err with
      | Some err => ((video, Some ("failed to generate presigned URL: " ++ err)), σ)
      | None => ((set_VideoURL video signedURL, None), σ)
      end
    | _ => ((video, Some format_error), σ)
    end
  end.

Definition processVideoForFastStart (env : Env) (filePath : string) (σ : St)
    : (string * option error) * St :=
  let outputPath := filePath ++ ".processing" in
  match ffmpeg env (fs σ !! filePath) with
  | Exit0 output =>
    ((outputPath, None), write_file outputPath output (emit (RunFfmpeg filePath outputPath true) σ))
  | ExitFailure err leftover =>
    let σ := emit (RunFfmpeg filePath outputPath false) σ in
    (("", Some ("failed to process video for fast start: " ++ err)),
     match leftover with
     | Some data => write_file outputPath data σ
     | None => σ
     end)
  end.

Definition getVideoAspectRatio (env : Env) (filePath : string) (σ : St)
    : (string * option error) * St :=
  (Aspect.getVideoAspectRatio
     {| Aspect.ffprobe := fun path => ffprobe_run env (fs σ !! path);
        Aspect.json_Unmarshal := json_Unmarshal env |} filePath,
   emit (RunFfprobe filePath) σ).

(** [const uploadLimit = 1 << 30]: declared at the top of the handler and
    not mentioned again in it. *)
Definition uploadLimit : Z := Z.shiftl 1 30.

Inductive Outcome := Returned | Panicked.

(** The handler from [os.Open(processedPath)] to its last statement: the
    part that runs with both deferred removals registered. *)
Definition upload_processed (cfg : apiConfig) (env : Env) (video : Video)
    (mediatype fileName processedPath : string) (σ : St) : St :=
  match os_Open_failure env, fs σ !! processedPath with
  | None, Some processedFile =>
    let '((orientation, err), σ) := getVideoAspectRatio env processedPath σ in
    match err with
    | Some _ => respondWithError StatusInternalServerError "Error getting aspect ratio" σ
    | None =>
      let objKey := orientation ++ "/" ++ fileName in
      match s3_PutObject env (s3Bucket cfg) objKey with
      | Some _ =>
        respondWithError StatusInternalServerError "Failed to upload video to S3"
          (emit (PutObject (s3Bucket cfg) objKey false) σ)
      | None =>
        let σ := with_s3 (<[(s3Bucket cfg, objKey) :=
                             {| ContentType := mediatype; Body := processedFile |}]> (s3 σ))
                   (emit (PutObject (s3Bucket cfg) objKey true) σ) in
        let videoURL := s3Bucket cfg ++ "," ++ objKey in
        let video := set_VideoURL video videoURL in
        let '(err, σ) := UpdateVideo_db env video σ in
        match err with
        | Some _ => respondWithError StatusInternalServerError "Error updating video metadata" σ
        | None =>
          let '((signedVideo, err), σ) := dbVideoToSignedVideo env video σ in
          match err with
          | Some _ =>
            respondWithError StatusInternalServerError
              "Error generating signed video URL when uploading" σ
          | None => respondWithJSON StatusOK signedVideo σ
          end
        end
      end
    end
  | _, _ => respondWithError StatusInternalServerError "Error opening processed video" σ
  end.

(** The handler from "generate file name" on, for an accepted request. *)
Definition stage_and_upload (cfg : apiConfig) (env : Env) (video : Video)
    (file : list byte) (contentType mediatype : string) (σ : St) : Outcome * St :=
  match Split contentType "/"%char !! 1%nat with
  | None => (Panicked, σ)
  | Some fileExtension =>
    let '(random, err) := rand_Read env 32 in
    let buffer := read_into (make 32) random in
    (* no [return] in this branch *)
    let σ := match err with
             | Some _ => respondWithError StatusInternalServerError
                           "Error creating random file name" σ
             | None => σ
             end in
    let fileName := EncodeToString buffer ++ "." ++ fileExtension in
    match os_CreateTemp env "" "tubely-upload.mp4" with
    | inr _ => (Returned, respondWithError StatusInternalServerError "Error creating file" σ)
    | inl originalFile =>
      let σ := write_file originalFile [] (emit (CreateTemp originalFile) σ) in
      match io_Copy env file with
      | CopyFailure _ written =>
        let σ := write_file originalFile written (emit (CopyTo originalFile written) σ) in
        (Returned, respondWithError StatusInternalServerError "Error copying data to file"
                     (os_Remove originalFile σ))
      | Copied =>
        let σ := write_file originalFile file (emit (CopyTo originalFile file) σ) in
        let '((processedPath, err), σ) := processVideoForFastStart env originalFile σ in
        match err with
        | Some _ =>
          (Returned, respondWithError StatusInternalServerError
                       "Error processing video for fast start" (os_Remove originalFile σ))
        | None =>
          let σ := upload_processed cfg env video mediatype fileName processedPath σ in
          (* deferred calls, last registered first *)
          (Returned, os_Remove originalFile (os_Remove processedPath σ))
        end
      end
    end
  end.

Definition handlerUploadVideo (cfg : apiConfig) (env : Env) (r : Request) (σ : St)
    : Outcome * St :=
  match uuid_Parse env (PathValue_videoID r) with
  | inr _ => (Returned, respondWithError StatusBadRequest "Invalid ID" σ)
  | inl videoID =>
  match GetBearerToken env (Header r) with
  | inr _ => (Returned, respondWithError StatusUnauthorized "Couldn't find JWT" σ)
  | inl token =>
  match ValidateJWT env token (jwtSecret cfg) with
  | inr _ => (Returned, respondWithError StatusUnauthorized "Couldn't validate JWT" σ)
  | inl userID =>
  match GetVideo env σ videoID with
  | inr ErrNoRows => (Returned, respondWithError StatusNotFound "No video with videoID" σ)
  | inr (ErrOther _) =>
    (Returned, respondWithError StatusInternalServerError "Could not read file" σ)
  | inl video =>
  if negb (UserID video =? userID)%N
  then (Returned, respondWithError StatusUnauthorized "Unauthorized to upload video" σ)
  else
  let '(part, σ) := FormFile env r σ in
  match part with
  | inr _ => (Returned, respondWithError StatusBadRequest "Unable to parse form file" σ)
  | inl (file, contentType) =>
  match ParseMediaType env contentType with
  | inr _ => (Returned, respondWithError StatusBadRequest "Error parsing media type" σ)
  | inl mediatype =>
  if negb (String.eqb mediatype "video/mp4")
  then (Returned, respondWithError StatusBadRequest "Media type is not allowed" σ)
  else stage_and_upload cfg env video file contentType mediatype σ
  end end end end end end.

(** *** Readings of the event log *)

Definition is_response (e : Event) : bool :=
  match e with RespondError _ _ | RespondJSON _ _ => true | _ => false end.

Definition responses (l : list Event) : list Event := List.filter is_response l.

Definition is_staging (e : Event) : bool :=
  match e with CreateTemp _ | CopyTo _ _ => true | _ => false end.

Definition is_put (e : Event) : bool :=
  match e with PutObject _ _ _ => true | _ => false end.

Definition is_put_ok (e : Event) : bool :=
  match e with PutObject _ _ true => true | _ => false end.

Definition is_update (e : Event) : bool :=
  match e with UpdateVideo _ _ => true | _ => false end.

(** No record update happens in [l] unless a successful object write
    happened earlier in it ([uploaded]: one already has). *)
Fixpoint update_follows_upload (uploaded : bool) (l : list Event) : bool :=
  match l with
  | [] => true
  | e :: l' =>
    (if is_update e then uploaded else true)
    && update_follows_upload (uploaded || is_put_ok e) l'
  end.

(** Nothing has been written yet to the object store or to the record
    store, which are still [db0] and [s30]. *)
Definition no_upload_yet (db0 : gmap UUID Video) (s30 : gmap (string * string) S3Object)
    (σ : St) : Prop :=
  db σ = db0 /\ s3 σ = s30
  /\ existsb is_put_ok (log σ) = false /\ existsb is_update (log σ) = false.

(** Record updates come after a successful object write, and without one
    both stores are as they were. *)
Definition ordered (db0 : gmap UUID Video) (s30 : gmap (string * string) S3Object)
    (σ : St) : Prop :=
  update_follows_upload false (log σ) = true
  /\ (existsb is_put_ok (log σ) = false ->
        db σ = db0 /\ s3 σ = s30 /\ existsb is_update (log σ) = false).

(** The request is authenticated as a user who is not the owner of the
    record it names. *)
Definition caller_is_not_owner (cfg : apiConfig) (env : Env) (r : Request)
    (db0 : gmap UUID Video) : Prop :=
  exists videoID token userID video,
    uuid_Parse env (PathValue_videoID r) = inl videoID
    /\ GetBearerToken env (Header r) = inl token
    /\ ValidateJWT env token (jwtSecret cfg) = inl userID
    /\ db0 !! videoID = Some video
    /\ UserID video <> userID.

(** The part the request carries does not declare the media type
    [video/mp4] (it declares another one, or one that does not parse). *)
Definition media_type_is_not_mp4 (env : Env) (r : Request) : Prop :=
  exists file contentType,
    FormFile_video r = inl (file, contentType)
    /\ ParseMediaType env contentType <> inl "video/mp4".

End Upload.

(* ===================================================================== *)
(** ** Concrete requests and collaborators *)
(* ===================================================================== *)

Module Scenario.
Import GoLib Upload.

Definition owner : UUID := 7%N.
Definition stranger : UUID := 8%N.
Definition videoID : UUID := 1%N.

Definition video0 : Video :=
  {| ID := videoID; UserID := owner; VideoURL := None; ThumbnailURL := None;
     Details := "holiday clip" |}.

Definition cfg0 : apiConfig := {| jwtSecret := "secret"; s3Bucket := "tubely" |}.

Definition db0 : gmap UUID Video := {[ videoID := video0 ]}.

(** [mime.ParseMediaType] on the headers used below: parameters after the
    [;] are split off the media type. *)
Definition parse_media_type (contentType : string) : string + error :=
  if String.eqb contentType "video/mp4" then inl "video/mp4"
  else if String.eqb contentType "video/mp4; codecs=avc1" then inl "video/mp4"
  else if String.eqb contentType "image/png" then inl "image/png"
  else inr "mime: no media type".

(** Collaborators that all succeed, except as the arguments say: the random
    source, the remux tool, and the streams the probe reports. *)
Definition env_with (rand : nat -> list byte * option error)
    (tool : option (list byte) -> FfmpegRun) (streams : list Aspect.stream) : Env :=
  {| uuid_Parse := fun s => if String.eqb s "1" then inl videoID else inr "invalid UUID";
     GetBearerToken := fun h =>
       match h with
       | [("Authorization", token)] => inl token
       | _ => inr "no auth header included in request"
       end;
     ValidateJWT := fun token _ =>
       if String.eqb token "owner-token" then inl owner
       else if String.eqb token "stranger-token" then inl stranger
       else inr "invalid token";
     db_read_failure := None;
     ParseMediaType := parse_media_type;
     rand_Read := rand;
     os_CreateTemp := fun _ pattern => inl ("/tmp/" ++ pattern ++ "4217");
     io_Copy := fun _ => Copied;
     ffmpeg := tool;
     os_Open_failure := None;
     ffprobe_run := fun content =>
       match content with
       | Some _ => inl "{...}"
       | None => inr "exit status 1"
       end;
     json_Unmarshal := fun _ => inl {| Aspect.Streams := streams |};
     s3_PutObject := fun _ _ => None;
     db_UpdateVideo := fun _ => None;
     PresignGetObject := fun bucket key _ =>
       inl ("https://" ++ bucket ++ ".s3.amazonaws.com/" ++ key ++ "?X-Amz-Expires=900") |}.

Definition rand_zeros (n : nat) : list byte * option error := (repeat Byte.x00 n, None).
Definition rand_broken (n : nat) : list byte * option error := ([], Some "entropy source failed").

(** A remux that copies its input, and one that fails after it has begun to
    write its output. *)
Definition remux_copy (input : option (list byte)) : FfmpegRun :=
  match input with
  | Some data => Exit0 data
  | None => ExitFailure "exit status 1" None
  end.
Definition remux_breaks (input : option (list byte)) : FfmpegRun :=
  ExitFailure "exit status 1" (Some [Byte.x00; Byte.x00]).

Definition hd_1080 : list Aspect.stream := [ {| Aspect.Width := 1920; Aspect.Height := 1080 |} ].
Definition zero_width : list Aspect.stream := [ {| Aspect.Width := 0; Aspect.Height := 720 |} ].

Definition env_ok : Env := env_with rand_zeros remux_copy hd_1080.

Definition request (token : string) (file : list byte) (contentType : string) : Request :=
  {| PathValue_videoID := "1";
     Header := [("Authorization", token)];
     FormFile_video := inl (file, contentType) |}.

Definition clip : list byte := [Byte.x00; Byte.x01; Byte.x02].

Definition tmp : string := "/tmp/tubely-upload.mp44217".
Definition name43 : string := "AAAAAAAAAAAAAAAAAAAAAAAAAAAAAAAAAAAAAAAAAAA".

Definition key_mp4 : string := "landscape/" ++ name43 ++ ".mp4".

Definition video_with (ref : string) : Video :=
  {| ID := videoID; UserID := owner; VideoURL := Some ref; ThumbnailURL := None;
     Details := "holiday clip" |}.

End Scenario.

(* ===================================================================== *)
(** ** The thumbnail handlers *)
(* ===================================================================== *)

Module Thumbnail.
Import GoLib.
Export Upload(UUID, Video, ID, UserID, VideoURL, ThumbnailURL, Details, CopyRun, Copied,
              CopyFailure, dberror, ErrNoRows, ErrOther, Outcome, Returned, Panicked).

Definition set_ThumbnailURL (video : Video) (url : string) : Video :=
  {| ID := ID video; UserID := UserID video; VideoURL := VideoURL video;
     ThumbnailURL := Some url; Details := Details video |}.

(** [type thumbnail struct { data []byte; mediaType string }], the value
    type of the global map [videoThumbnails]. *)
Record thumbnail := { data : list byte; mediaType : string }.

(** The fields of [apiConfig] the thumbnail handlers read. *)
Record apiConfig := { jwtSecret : string; assetsRoot : string; port : string }.

(** The request as it arrives: the path value, the headers, and the part
    named [thumbnail] of the multipart body (its bytes and its
    [Content-Type] header), or the error [r.FormFile("thumbnail")] reports
    when the body does not parse or holds no such part. *)
Record Request := {
  PathValue_videoID : string;
  Header : list (string * string);
  FormFile_thumbnail : (list byte * string) + error
}.

Inductive Event :=
| RespondError (code : Z) (msg : string)
| RespondJSON (code : Z) (payload : Video)
| Println (videoID userID : UUID)
| CreateFile (name : string)
| CopyTo (name : string) (data : list byte)
| StoreThumbnail (videoID : UUID) (tn : thumbnail)
| UpdateVideo (video : Video) (ok : bool).

(** The record store, the local file system, the global map
    [videoThumbnails], and the events of the request so far. *)
Record St := {
  db : gmap UUID Video;
  fs : gmap string (list byte);
  videoThumbnails : gmap UUID thumbnail;
  log : list Event
}.

Definition boot (db0 : gmap UUID Video) (fs0 : gmap string (list byte))
    (tn0 : gmap UUID thumbnail) : St :=
  {| db := db0; fs := fs0; videoThumbnails := tn0; log := [] |}.

Definition emit (e : Event) (σ : St) : St :=
  {| db := db σ; fs := fs σ; videoThumbnails := videoThumbnails σ; log := log σ ++ [e] |}.
Definition with_db (d : gmap UUID Video) (σ : St) : St :=
  {| db := d; fs := fs σ; videoThumbnails := videoThumbnails σ; log := log σ |}.
Definition with_fs (f : gmap string (list byte)) (σ : St) : St :=
  {| db := db σ; fs := f; videoThumbnails := videoThumbnails σ; log := log σ |}.
Definition with_videoThumbnails (t : gmap UUID thumbnail) (σ : St) : St :=
  {| db := db σ; fs := fs σ; videoThumbnails := t; log := log σ |}.

(** The collaborators outside the handlers. *)
Record Env := {
  uuid_Parse : string -> UUID + error;
  uuid_String : UUID -> string;
  GetBearerToken : list (string * string) -> string + error;
  ValidateJWT : string -> string -> UUID + error;
  db_read_failure : option error;
  ParseMediaType : string -> string + error;
  rand_Read : nat -> list byte * option error;
  filepath_Join : string -> string -> string;
  os_CreateTemp : string -> string -> string + error;
  os_Create : string -> option error;
  io_Copy : list byte -> CopyRun;
  io_ReadAll : list byte -> list byte + error;
  db_UpdateVideo : Video -> option error
}.

Definition respondWithError (code : Z) (msg : string) (σ : St) : St :=
  emit (RespondError code msg) σ.
Definition respondWithJSON (code : Z) (payload : Video) (σ : St) : St :=
  emit (RespondJSON code payload) σ.

Definition GetVideo (env : Env) (σ : St) (id : UUID) : Video + dberror :=
  match db_read_failure env with
  | Some err => inr (ErrOther err)
  | None => match db σ !! id with
            | Some video => inl video
            | None => inr ErrNoRows
            end
  end.

Definition UpdateVideo_db (env : Env) (video : Video) (σ : St) : option error * St :=
  match db_UpdateVideo env video with
  | Some err => (Some err, emit (UpdateVideo video false) σ)
  | None => (None, with_db (<[ID video := video]> (db σ)) (emit (UpdateVideo video true) σ))
  end.

Definition write_file (name : string) (bytes : list byte) (σ : St) : St :=
  with_fs (<[name := bytes]> (fs σ)) σ.

(** [const maxMemory = 10 << 20] *)
Definition maxMemory : Z := Z.shiftl 10 20.

(** [r.ParseMultipartForm(maxMemory)], with what a later
    [r.FormFile("thumbnail")] yields.  The whole body is parsed:
    [mime/multipart] keeps a file part of at most [maxMemory] bytes in memory
    and writes a longer one to a file it makes with
    [os.CreateTemp("", "multipart-")]; the parse fails when that file cannot
    be made, and [r.FormFile] then has no form to read the part from.  The
    server removes the file only after the handler has returned, so it is
    there for the rest of the run. *)
Definition ParseMultipartForm (env : Env) (r : Request) (maxMemory : Z) (σ : St)
    : ((list byte * string) + error) * St :=
  match FormFile_thumbnail r with
  | inr err => (inr err, σ)
  | inl (file, contentType) =>
    if maxMemory <? Z.of_nat (length file)
    then match os_CreateTemp env "" "multipart-" with
         | inr err => (inr err, σ)
         | inl name => (inl (file, contentType), write_file name file σ)
         end
    else (inl (file, contentType), σ)
  end.

(** *** The handler that writes the thumbnail to the assets directory *)

(** From "generate file path" on. *)
Definition save_to_assets (cfg : apiConfig) (env : Env) (video : Video)
    (file : list byte) (contentType : string) (σ : St) : Outcome * St :=
  match Split contentType "/"%char !! 1%nat with
  | None => (Panicked, σ)
  | Some fileExtension =>
    let '(random, err) := rand_Read env 32 in
    let buffer := read_into (make 32) random in
    (* no [return] in this branch *)
    let σ := match err with
             | Some _ => respondWithError Upload.StatusInternalServerError
                           "Error creating random file name" σ
             | None => σ
             end in
    let fileName := EncodeToString buffer ++ "." ++ fileExtension in
    let filepath := filepath_Join env (assetsRoot cfg) fileName in
    match os_Create env filepath with
    | Some _ =>
      (Returned, respondWithError Upload.StatusInternalServerError "Error creating file" σ)
    | None =>
      let σ := write_file filepath [] (emit (CreateFile filepath) σ) in
      match io_Copy env file with
      | CopyFailure _ written =>
        let σ := write_file filepath written (emit (CopyTo filepath written) σ) in
        (Returned, respondWithError Upload.StatusInternalServerError
                     "Error copying data to file" σ)
      | Copied =>
        let σ := write_file filepath file (emit (CopyTo filepath file) σ) in
        let thumbnail_url := "http://localhost:" ++ port cfg ++ "/assets/" ++ fileName in
        let video := set_ThumbnailURL video thumbnail_url in
        let '(err, σ) := UpdateVideo_db env video σ in
        match err with
        | Some _ =>
          (Returned, respondWithError Upload.StatusInternalServerError
                       "Error storing video metadata" σ)
        | None => (Returned, respondWithJSON Upload.StatusOK video σ)
        end
      end
    end
  end.

Definition handlerUploadThumbnail (cfg : apiConfig) (env : Env) (r : Request) (σ : St)
    : Outcome * St :=
  match uuid_Parse env (PathValue_videoID r) with
  | inr _ => (Returned, respondWithError Upload.StatusBadRequest "Invalid ID" σ)
  | inl videoID =>
  match GetBearerToken env (Header r) with
  | inr _ => (Returned, respondWithError Upload.StatusUnauthorized "Couldn't find JWT" σ)
  | inl token =>
  match ValidateJWT env token (jwtSecret cfg) with
  | inr _ => (Returned, respondWithError Upload.StatusUnauthorized "Couldn't validate JWT" σ)
  | inl userID =>
  let σ := emit (Println videoID userID) σ in
  (* the result of [r.ParseMultipartForm(maxMemory)] is dropped *)
  let '(part, σ) := ParseMultipartForm env r maxMemory σ in
  match part with
  | inr _ => (Returned, respondWithError Upload.StatusBadRequest "Unable to parse form file" σ)
  | inl (file, contentType) =>
  match GetVideo env σ videoID with
  | inr ErrNoRows =>
    (Returned, respondWithError Upload.StatusNotFound "No video with videoID" σ)
  | inr (ErrOther _) =>
    (Returned, respondWithError Upload.StatusInternalServerError "Could not read file" σ)
  | inl video =>
  if negb (UserID video =? userID)%N
  then (Returned, respondWithError Upload.StatusUnauthorized
                    "Unauthorized to upload thumbnail" σ)
  else
  match ParseMediaType env contentType with
  | inr _ => (Returned, respondWithError Upload.StatusBadRequest "Error parsing media type" σ)
  | inl mediatype =>
  if negb (String.eqb mediatype "image/jpeg" || String.eqb mediatype "image/png")
  then (Returned, respondWithError Upload.StatusBadRequest "Media type is not allowed" σ)
  else save_to_assets cfg env video file contentType σ
  end end end end end end.

(** *** The handler that keeps the thumbnail in the global map *)

Definition handlerUploadThumbnail_inmemory (cfg : apiConfig) (env : Env) (r : Request)
    (σ : St) : St :=
  match uuid_Parse env (PathValue_videoID r) with
  | inr _ => respondWithError Upload.StatusBadRequest "Invalid ID" σ
  | inl videoID =>
  match GetBearerToken env (Header r) with
  | inr _ => respondWithError Upload.StatusUnauthorized "Couldn't find JWT" σ
  | inl token =>
  match ValidateJWT env token (jwtSecret cfg) with
  | inr _ => respondWithError Upload.StatusUnauthorized "Couldn't validate JWT" σ
  | inl userID =>
  let σ := emit (Println videoID userID) σ in
  (* the result of [r.ParseMultipartForm(maxMemory)] is dropped *)
  let '(part, σ) := ParseMultipartForm env r maxMemory σ in
  match part with
  | inr _ => respondWithError Upload.StatusBadRequest "Unable to parse form file" σ
  | inl (file, contentType) =>
  match io_ReadAll env file with
  | inr _ => respondWithError Upload.StatusInternalServerError "Could not read file" σ
  | inl imageData =>
  match GetVideo env σ videoID with
  | inr ErrNoRows => respondWithError Upload.StatusNotFound "No video with videoID" σ
  | inr (ErrOther _) =>
    respondWithError Upload.StatusInternalServerError "Could not read file" σ
  | inl video =>
  if negb (UserID video =? userID)%N
  then respondWithError Upload.StatusUnauthorized "Unauthorized to upload thumbnail" σ
  else
    let tn := {| data := imageData; mediaType := contentType |} in
    let σ := with_videoThumbnails (<[videoID := tn]> (videoThumbnails σ))
               (emit (StoreThumbnail videoID tn) σ) in
    let url := "http://localhost:" ++ port cfg ++ "/api/thumbnails/"
               ++ uuid_String env videoID in
    let video := set_ThumbnailURL video url in
    (* the result of [cfg.db.UpdateVideo(video)] is dropped *)
    let '(_, σ) := UpdateVideo_db env video σ in
    respondWithJSON Upload.StatusOK video σ
  end end end end end end.

(** *** Readings of the event log *)

Definition is_response (e : Event) : bool :=
  match e with RespondError _ _ | RespondJSON _ _ => true | _ => false end.

Definition is_file_event (e : Event) : bool :=
  match e with CreateFile _ | CopyTo _ _ => true | _ => false end.

Definition caller_is_not_owner (cfg : apiConfig) (env : Env) (r : Request)
    (db0 : gmap UUID Video) : Prop :=
  exists videoID token userID video,
    uuid_Parse env (PathValue_videoID r) = inl videoID
    /\ GetBearerToken env (Header r) = inl token
    /\ ValidateJWT env token (jwtSecret cfg) = inl userID
    /\ db0 !! videoID = Some video
    /\ UserID video <> userID.

Definition media_type_is_not_image (env : Env) (r : Request) : Prop :=
  exists file contentType,
    FormFile_thumbnail r = inl (file, contentType)
    /\ ParseMediaType env contentType <> inl "image/jpeg"
    /\ ParseMediaType env contentType <> inl "image/png".

End Thumbnail.

(** *** Further readings of the upload handler's results *)

Module Reading.
Import GoLib Upload.

(** A byte of the alphabet of [base64.RawURLEncoding]. *)
Definition url_safe (c : ascii) : bool :=
  existsb (Ascii.eqb c) (list_ascii_of_string encodeURL).

Definition all_url_safe (s : string) : bool := forallb url_safe (list_ascii_of_string s).

Definition is_json (e : Event) : bool :=
  match e with RespondJSON _ _ => true | _ => false end.

(** The three orientation labels. *)
Definition is_label (s : string) : Prop :=
  s = "landscape" \/ s = "portrait" \/ s = "other".

(** The events after which the handler owns a temporary file: the staging
    file it created, and the output of a remux that succeeded. *)
Definition makes_file (e : Event) : bool :=
  match e with CreateTemp _ | RunFfmpeg _ _ true => true | _ => false end.

(** The number of responses written so far. *)
Definition nresp (σ : St) : nat := length (responses (log σ)).

(** What a record update in the log tells about the run. *)
Definition update_facts (cfg : apiConfig) (video : Video) (mediatype fileName : string)
    (body : list byte) (σ' : St) (v : Video) : Prop :=
  exists orientation,
    is_label orientation
    /\ v = set_VideoURL video (s3Bucket cfg ++ "," ++ orientation ++ "/" ++ fileName)
    /\ In (PutObject (s3Bucket cfg) (orientation ++ "/" ++ fileName) true) (log σ')
    /\ s3 σ' !! (s3Bucket cfg, orientation ++ "/" ++ fileName)
       = Some {| ContentType := mediatype; Body := body |}.

(** What a JSON response in the log tells about the run. *)
Definition json_facts (env : Env) (σ' : St) (code : Z) (payload : Video) : Prop :=
  code = 200
  /\ exists v ref bucket key url,
       In (UpdateVideo v true) (log σ')
       /\ db σ' !! ID v = Some v
       /\ VideoURL v = Some ref
       /\ Split ref "," = [bucket; key]
       /\ PresignGetObject env bucket key fifteen_minutes = inl url
       /\ payload = set_VideoURL v url.

End Reading.

(** *** Concrete thumbnail requests and collaborators *)

Module ThumbScenario.
Import GoLib Thumbnail.

Definition cfg0 : apiConfig :=
  {| jwtSecret := "secret"; assetsRoot := "./assets"; port := "8091" |}.

Definition env_ok : Env :=
  {| uuid_Parse := fun s => if String.eqb s "1" then inl Scenario.videoID
                            else inr "invalid UUID";
     uuid_String := fun _ => "00000000-0000-0000-0000-000000000001";
     GetBearerToken := fun h =>
       match h with
       | [("Authorization", token)] => inl token
       | _ => inr "no auth header included in request"
       end;
     ValidateJWT := fun token _ =>
       if String.eqb token "owner-token" then inl Scenario.owner
       else if String.eqb token "stranger-token" then inl Scenario.stranger
       else inr "invalid token";
     db_read_failure := None;
     ParseMediaType := fun contentType =>
       if String.eqb contentType "image/png" then inl "image/png"
       else if String.eqb contentType "image/jpeg" then inl "image/jpeg"
       else if String.eqb contentType "video/mp4" then inl "video/mp4"
       else inr "mime: no media type";
     rand_Read := Scenario.rand_zeros;
     filepath_Join := fun root name => root ++ "/" ++ name;
     os_CreateTemp := fun _ pattern => inl ("/tmp/" ++ pattern ++ "4217");
     os_Create := fun _ => None;
     io_Copy := fun _ => Copied;
     io_ReadAll := fun bytes => inl bytes;
     db_UpdateVideo := fun _ => None |}.

Definition request (token : string) (file : list byte) (contentType : string) : Request :=
  {| PathValue_videoID := "1";
     Header := [("Authorization", token)];
     FormFile_thumbnail := inl (file, contentType) |}.

Definition png_url : string :=
  "http://localhost:8091/assets/" ++ Scenario.name43 ++ ".png".

Definition inmemory_url : string :=
  "http://localhost:8091/api/thumbnails/00000000-0000-0000-0000-000000000001".

End ThumbScenario.

(* ===================================================================== *)
(** ** Properties of the aspect classifier *)
(* ===================================================================== *)

Section AspectScan.
Import Aspect.

Lemma of_Z_succ (z : Z) : (Uint63.of_Z z + 1)%uint63 = Uint63.of_Z (z + 1).
Proof.
  apply Uint63.to_Z_inj.
  rewrite Uint63.add_spec, !Uint63.of_Z_spec, Uint63.to_Z_1.
  apply Zplus_mod_idemp_l.
Qed.

Lemma scan_row_sound (h : int) (n : nat) :
  forall z : Z, scan_row h (Uint63.of_Z z) n = true ->
  forall z' : Z, z <= z' < z + Z.of_nat n -> agreeI (Uint63.of_Z z') h = true.
Proof.
  induction n as [|n IH]; intros z Hscan z' Hz'.
  - simpl in Hz'. lia.
  - cbn [scan_row] in Hscan. apply andb_prop in Hscan as [Hhere Hrest].
    rewrite of_Z_succ in Hrest.
    destruct (Z.eq_dec z' z) as [->|Hne]; [exact Hhere|].
    apply (IH (z + 1) Hrest). lia.
Qed.

Lemma scan_rows_sound (m n : nat) :
  forall y : Z, scan_rows (Uint63.of_Z y) m n = true ->
  forall y' z' : Z, y <= y' < y + Z.of_nat m -> 1 <= z' < 1 + Z.of_nat n ->
  agreeI (Uint63.of_Z z') (Uint63.of_Z y') = true.
Proof.
  induction m as [|m IH]; intros y Hscan y' z' Hy' Hz'.
  - simpl in Hy'. lia.
  - cbn [scan_rows] in Hscan. apply andb_prop in Hscan as [Hrow Hrest].
    rewrite of_Z_succ in Hrest.
    destruct (Z.eq_dec y' y) as [->|Hne].
    + exact (scan_row_sound _ n 1 Hrow z' Hz').
    + apply (IH (y + 1) Hrest); [lia | exact Hz'].
Qed.

Lemma scan_all : scan_rows 1%uint63 (Z.to_nat max_dim) (Z.to_nat max_dim) = true.
Proof. vm_compute. reflexivity. Qed.

Lemma to_Z_of_Z_small (z : Z) : 0 <= z < 2 ^ 40 -> Uint63.to_Z (Uint63.of_Z z) = z.
Proof.
  intros Hz. rewrite Uint63.of_Z_spec. apply Z.mod_small.
  change wB with (2 ^ 63). split; [lia|].
  apply Z.lt_trans with (2 ^ 40); [lia | reflexivity].
Qed.

Lemma to_Z_scaled (k : int) (z : Z) :
  0 <= Uint63.to_Z k < 512 -> 0 <= z < 2 ^ 40 ->
  Uint63.to_Z (k * Uint63.of_Z z)%uint63 = Uint63.to_Z k * z.
Proof.
  intros Hk Hz. rewrite Uint63.mul_spec, to_Z_of_Z_small by exact Hz.
  apply Z.mod_small. change wB with (2 ^ 63).
  assert (2 ^ 40 * 512 < 2 ^ 63) by reflexivity. nia.
Qed.

Lemma ltbI_Z (x y : int) : (x <? y)%uint63 = (Uint63.to_Z x <? Uint63.to_Z y).
Proof.
  destruct (Uint63.ltbP x y); symmetry; [apply Z.ltb_lt | apply Z.ltb_ge]; lia.
Qed.

Lemma lebI_Z (x y : int) : (x <=? y)%uint63 = (Uint63.to_Z x <=? Uint63.to_Z y).
Proof.
  destruct (Uint63.lebP x y); symmetry; [apply Z.leb_le | apply Z.leb_gt]; lia.
Qed.

Lemma near_landscapeI_Z (w h : Z) :
  0 <= w < 2 ^ 40 -> 0 <= h < 2 ^ 40 ->
  near_landscapeI (Uint63.of_Z w) (Uint63.of_Z h) = near_landscape w h.
Proof.
  intros Hw Hh. unfold near_landscapeI, near_landscape.
  rewrite lebI_Z, ltbI_Z, !to_Z_scaled by (assumption || (vm_compute; split; congruence)).
  reflexivity.
Qed.

Lemma near_portraitI_Z (w h : Z) :
  0 <= w < 2 ^ 40 -> 0 <= h < 2 ^ 40 ->
  near_portraitI (Uint63.of_Z w) (Uint63.of_Z h) = near_portrait w h.
Proof.
  intros Hw Hh. unfold near_portraitI, near_portrait.
  rewrite !ltbI_Z, !to_Z_scaled by (assumption || (vm_compute; split; congruence)).
  reflexivity.
Qed.

Lemma float64_of_int_pos (z : Z) : 0 < z -> float64_of_int z = of_uint63 (Uint63.of_Z z).
Proof.
  intros Hz. unfold float64_of_int, min_int.
  destruct (Z.eqb_spec z (-9223372036854775808)); [lia|].
  destruct (Z.ltb_spec z 0); [lia | reflexivity].
Qed.

(** Within the scanned rectangle the two float64 tests of the classifier
    are the exact comparisons of [width/height] with the interval ends. *)
Lemma approx_exact (w h : Z) :
  0 < w <= max_dim -> 0 < h <= max_dim ->
  let ratio := (float64_of_int w / float64_of_int h)%float in
  approx ratio sixteen_ninths = near_landscape w h
  /\ approx ratio nine_sixteenths = near_portrait w h.
Proof.
  intros Hw Hh ratio. subst ratio.
  assert (Hm : max_dim < 2 ^ 40) by reflexivity.
  rewrite !float64_of_int_pos by lia.
  pose proof (scan_rows_sound _ _ 1 scan_all h w) as Hscan.
  rewrite !Z2Nat.id in Hscan by (unfold max_dim; lia).
  specialize (Hscan ltac:(lia) ltac:(lia)).
  unfold agreeI in Hscan. apply andb_prop in Hscan as [Hl Hp].
  apply Bool.eqb_prop in Hl, Hp.
  rewrite near_landscapeI_Z in Hl by lia.
  rewrite near_portraitI_Z in Hp by lia.
  split; assumption.
Qed.

End AspectScan.

Section AspectClaims.
Import Aspect.





(** C9.  The classifier answers with an error, and the empty label, when the
    probe output does not parse, when it lists no stream, and when the first
    stream has width 0 or height 0; when it answers without error the label
    is one of [landscape], [portrait], [other]. *)
Theorem getVideoAspectRatio_errors_and_labels (P : Probe) (filePath : string) :
  (forall out e, ffprobe P filePath = inl out -> json_Unmarshal P out = inr e ->
     exists msg, getVideoAspectRatio P filePath = ("", Some msg))
  /\ (forall out parsed, ffprobe P filePath = inl out ->
        json_Unmarshal P out = inl parsed -> Streams parsed = [] ->
        exists msg, getVideoAspectRatio P filePath = ("", Some msg))
  /\ (forall out parsed s0 rest, ffprobe P filePath = inl out ->
        json_Unmarshal P out = inl parsed -> Streams parsed = s0 :: rest ->
        Width s0 = 0 \/ Height s0 = 0 ->
        exists msg, getVideoAspectRatio P filePath = ("", Some msg))
  /\ (forall label, getVideoAspectRatio P filePath = (label, None) ->
        label = "landscape" \/ label = "portrait" \/ label = "other").
Proof.
  unfold getVideoAspectRatio. repeat split.
  - intros out e -> ->. eauto.
  - intros out parsed -> -> ->. eauto.
  - intros out parsed s0 rest -> -> -> Hz.
    assert ((Width s0 =? 0) || (Height s0 =? 0) = true) as ->; [|eauto].
    apply orb_true_iff. rewrite !Z.eqb_eq. exact Hz.
  - intros label.
    destruct (ffprobe P filePath) as [out|]; [|discriminate].
    destruct (json_Unmarshal P out) as [parsed|]; [|discriminate].
    destruct (Streams parsed) as [|s0 rest]; [discriminate|].
    destruct ((Width s0 =? 0) || (Height s0 =? 0)); [discriminate|].
    intros [= <-]. unfold classify, classify_ratio.
    destruct (approx _ sixteen_ninths); [tauto|].
    destruct (approx _ nine_sixteenths); tauto.
Qed.

End AspectClaims.

(* ===================================================================== *)
(** ** Properties of the presigned view *)
(* ===================================================================== *)

Section PresignedView.
Import GoLib Upload.

Lemma Split_length (s : string) (sep : ascii) :
  length (Split s sep) = S (Count s sep).
Proof.
  induction s as [|c s IH]; [reflexivity|].
  cbn [Split Count]. destruct (Ascii.eqb c sep).
  - cbn. now rewrite IH.
  - destruct (Split s sep) as [|piece pieces]; [discriminate IH|].
    cbn in *. exact IH.
Qed.

Lemma Split_two (s : string) (sep : ascii) :
  Count s sep = 1%nat <-> exists bucket key, Split s sep = [bucket; key].
Proof.
  pose proof (Split_length s sep) as Hlen. split.
  - intros Hc. rewrite Hc in Hlen.
    destruct (Split s sep) as [|b [|k [|]]]; try discriminate Hlen. eauto.
  - intros (b & k & Hs). rewrite Hs in Hlen. cbn in Hlen. lia.
Qed.

Lemma Join_Split (s : string) (sep : ascii) : Join (Split s sep) sep = s.
Proof.
  induction s as [|c s IH]; [reflexivity|].
  pose proof (Split_length s sep) as Hlen.
  cbn [Split]. destruct (Ascii.eqb_spec c sep) as [->|Hne];
    destruct (Split s sep) as [|piece pieces]; try discriminate Hlen.
  - rewrite <- IH. reflexivity.
  - rewrite <- IH. destruct pieces; reflexivity.
Qed.

Lemma Split_join (s : string) (sep : ascii) (bucket key : string) :
  Split s sep = [bucket; key] -> s = bucket ++ String sep key.
Proof.
  intros Hs. rewrite <- (Join_Split s sep), Hs. reflexivity.
Qed.

(** C4 (amended).  The generator checks the number of commas only.  A
    stored reference whose number of commas is not one (none, or two and
    more) gives the format error, the record as it was passed, and an
    untouched state.  A reference with exactly one comma is never a format
    error, whatever stands on either side of the comma, an empty bucket or
    an empty key included: the text before the comma and the text after it
    go to the presign request. *)
Theorem presign_rejects_by_comma_count (env : Env) (video : Video) (ref : string) (σ : St) :
  VideoURL video = Some ref ->
  (Count ref "," <> 1%nat ->
     dbVideoToSignedVideo env video σ = ((video, Some format_error), σ))
  /\ (Count ref "," = 1%nat ->
     exists bucket key,
       ref = bucket ++ "," ++ key
       /\ snd (dbVideoToSignedVideo env video σ) = emit (Presign bucket key) σ
       /\ snd (fst (dbVideoToSignedVideo env video σ)) <> Some format_error).
Proof.
  intros Href. unfold dbVideoToSignedVideo. rewrite Href. split.
  - intros Hc.
    destruct (Split ref ",") as [|b [|k [|]]] eqn:Hs; try reflexivity.
    exfalso. apply Hc. apply Split_two. eauto.
  - intros Hc. apply Split_two in Hc as (b & k & Hs). exists b, k.
    split; [exact (Split_join _ _ _ _ Hs)|].
    rewrite Hs. unfold generatePresignedURL.
    destruct (PresignGetObject env b k fifteen_minutes); cbn; repeat split; discriminate.
Qed.

(** C10.  When the generator answers with an error, the video it answers
    with is its argument; a record without reference passes through with no
    error; an answer without error is either the argument itself (no
    reference) or the argument with [VideoURL] set to the URL the presign
    request gave; the other fields and the stores are the same in every
    case. *)
Theorem signed_view_error_keeps_record (env : Env) (video : Video) (σ : St) :
  let out := fst (dbVideoToSignedVideo env video σ) in
  let σ' := snd (dbVideoToSignedVideo env video σ) in
  (snd out <> None -> fst out = video)
  /\ (VideoURL video = None -> out = (video, None))
  /\ (snd out = None ->
        fst out = video
        \/ exists ref bucket key url,
             VideoURL video = Some ref /\ Split ref "," = [bucket; key]
             /\ PresignGetObject env bucket key fifteen_minutes = inl url
             /\ fst out = set_VideoURL video url)
  /\ (ID (fst out) = ID video /\ UserID (fst out) = UserID video
      /\ ThumbnailURL (fst out) = ThumbnailURL video /\ Details (fst out) = Details video)
  /\ (db σ' = db σ /\ s3 σ' = s3 σ /\ fs σ' = fs σ).
Proof.
  unfold dbVideoToSignedVideo, generatePresignedURL.
  destruct (VideoURL video) as [ref|] eqn:Href; cbn.
  2:{ repeat split; try congruence. now left. }
  destruct (Split ref ",") as [|b [|k [|]]] eqn:Hs; cbn;
    try (repeat split; congruence).
  destruct (PresignGetObject env b k fifteen_minutes) as [url|e] eqn:Hp; cbn.
  - repeat split; try congruence. intros _. right. exists ref, b, k, url. auto.
  - repeat split; congruence.
Qed.

End PresignedView.

(* ===================================================================== *)
(** ** Properties of the upload handler *)
(* ===================================================================== *)

Section Parsing.
Import GoLib Upload.

(** [r.FormFile] touches the file system only, and the part it yields is
    the part the request carries. *)
Lemma FormFile_state (env : Env) (r : Request) (σ : St) :
  exists f, snd (FormFile env r σ) = with_fs f σ.
Proof.
  unfold FormFile. destruct σ as [d f o l].
  destruct (FormFile_video r) as [[file contentType]|]; [|now exists f].
  destruct (defaultMaxMemory <? _); [|now exists f].
  destruct (os_CreateTemp env "" "multipart-") as [name|]; [|now exists f].
  now exists (<[name := file]> f).
Qed.

Lemma FormFile_part (env : Env) (r : Request) (σ : St) (file : list byte)
    (contentType : string) :
  fst (FormFile env r σ) = inl (file, contentType) ->
  FormFile_video r = inl (file, contentType).
Proof.
  unfold FormFile.
  destruct (FormFile_video r) as [[file' contentType']|]; [|discriminate].
  destruct (defaultMaxMemory <? _); [|exact (fun H => H)].
  destruct (os_CreateTemp env "" "multipart-"); [exact (fun H => H) | discriminate].
Qed.

(** Where the part's bytes are when [r.FormFile] has returned. *)
Lemma FormFile_fs (env : Env) (r : Request) (σ : St) :
  fs (snd (FormFile env r σ)) = fs σ
  \/ exists file contentType name,
       FormFile_video r = inl (file, contentType)
       /\ defaultMaxMemory < Z.of_nat (length file)
       /\ os_CreateTemp env "" "multipart-" = inl name
       /\ fs (snd (FormFile env r σ)) = <[name := file]> (fs σ).
Proof.
  unfold FormFile.
  destruct (FormFile_video r) as [[file contentType]|]; [|now left].
  destruct (Z.ltb_spec defaultMaxMemory (Z.of_nat (length file))); [|now left].
  destruct (os_CreateTemp env "" "multipart-") as [name|]; [|now left].
  right. now exists file, contentType, name.
Qed.

Lemma FormFile_in_memory (env : Env) (r : Request) (σ : St) (file : list byte)
    (contentType : string) :
  FormFile_video r = inl (file, contentType) ->
  Z.of_nat (length file) <= defaultMaxMemory ->
  FormFile env r σ = (inl (file, contentType), σ).
Proof.
  intros Hpart Hsize. unfold FormFile. rewrite Hpart.
  destruct (Z.ltb_spec defaultMaxMemory (Z.of_nat (length file))); [lia | reflexivity].
Qed.

End Parsing.

Section UploadOrder.
Import GoLib Upload.

Variables (db0 : gmap UUID Video) (s30 : gmap (string * string) S3Object).

Local Abbreviation pristine := (no_upload_yet db0 s30).
Local Abbreviation in_order := (ordered db0 s30).

Lemma update_follows_upload_app (b : bool) (l1 l2 : list Event) :
  update_follows_upload b (l1 ++ l2)
  = update_follows_upload b l1 && update_follows_upload (b || existsb is_put_ok l1) l2.
Proof.
  revert b. induction l1 as [|e l1 IH]; intros b; cbn [app update_follows_upload existsb].
  - now rewrite orb_false_r.
  - rewrite IH, andb_assoc, orb_assoc. reflexivity.
Qed.

Lemma update_free (b : bool) (l : list Event) :
  existsb is_update l = false -> update_follows_upload b l = true.
Proof.
  revert b. induction l as [|e l IH]; intros b; cbn [existsb update_follows_upload]; [reflexivity|].
  intros [He Hl]%orb_false_elim. rewrite He. cbn. now apply IH.
Qed.

Lemma update_follows_upload_mono (l : list Event) :
  update_follows_upload false l = true -> update_follows_upload true l = true.
Proof.
  generalize false. induction l as [|e l IH]; intros b; cbn [update_follows_upload]; [reflexivity|].
  intros [He Hl]%andb_prop. destruct (is_update e); cbn in *.
  - subst b. cbn in Hl. exact Hl.
  - destruct b; cbn in Hl; [exact Hl|].
    destruct (is_put_ok e); cbn in Hl; [exact Hl | now apply (IH false)].
Qed.

Lemma no_upload_yet_ordered (σ : St) : pristine σ -> in_order σ.
Proof.
  intros (Hd & Hs & Hp & Hu). split; [now apply update_free | auto].
Qed.

Lemma no_upload_yet_emit (e : Event) (σ : St) :
  is_put_ok e = false -> is_update e = false -> pristine σ -> pristine (emit e σ).
Proof.
  intros He1 He2 (Hd & Hs & Hp & Hu). unfold no_upload_yet. cbn [emit db s3 log].
  rewrite !existsb_app. cbn [existsb]. rewrite Hp, Hu, He1, He2. auto.
Qed.

Lemma no_upload_yet_with_fs (f : gmap string (list byte)) (σ : St) :
  pristine σ -> pristine (with_fs f σ).
Proof. exact (fun H => H). Qed.

Lemma ordered_emit (e : Event) (σ : St) :
  is_update e = false -> is_put_ok e = false -> in_order σ -> in_order (emit e σ).
Proof.
  intros He Hq [Ho Hs]. unfold ordered. cbn [emit db s3 log].
  rewrite update_follows_upload_app, !existsb_app. cbn [update_follows_upload existsb].
  rewrite Ho, He, Hq, !orb_false_r. split; [reflexivity|]. exact Hs.
Qed.

Lemma ordered_with_fs (f : gmap string (list byte)) (σ : St) :
  in_order σ -> in_order (with_fs f σ).
Proof. exact (fun H => H). Qed.

Lemma ordered_respondWithError (code : Z) (msg : string) (σ : St) :
  in_order σ -> in_order (respondWithError code msg σ).
Proof. now apply ordered_emit. Qed.

Lemma ordered_os_Remove (name : string) (σ : St) : in_order σ -> in_order (os_Remove name σ).
Proof. intros H. apply ordered_with_fs. now apply ordered_emit. Qed.

Lemma no_upload_yet_respondWithError (code : Z) (msg : string) (σ : St) :
  pristine σ -> pristine (respondWithError code msg σ).
Proof. now apply no_upload_yet_emit. Qed.

Lemma no_upload_yet_os_Remove (name : string) (σ : St) :
  pristine σ -> pristine (os_Remove name σ).
Proof. intros H. apply no_upload_yet_with_fs. now apply no_upload_yet_emit. Qed.

Lemma no_upload_yet_write_file (name : string) (data : list byte) (σ : St) :
  pristine σ -> pristine (write_file name data σ).
Proof. exact (fun H => H). Qed.

Lemma no_upload_yet_processVideoForFastStart (env : Env) (filePath : string) (σ : St) :
  pristine σ -> pristine (snd (processVideoForFastStart env filePath σ)).
Proof.
  intros H. unfold processVideoForFastStart.
  destruct (ffmpeg env (fs σ !! filePath)) as [output|err [data|]]; cbn [snd];
    repeat first [apply no_upload_yet_write_file | apply no_upload_yet_emit]; auto.
Qed.

Lemma dbVideoToSignedVideo_quiet (env : Env) (video : Video) (σ : St) :
  exists evs, snd (dbVideoToSignedVideo env video σ)
              = {| db := db σ; fs := fs σ; s3 := s3 σ; log := log σ ++ evs |}
              /\ existsb is_update evs = false /\ existsb is_put_ok evs = false.
Proof.
  unfold dbVideoToSignedVideo, generatePresignedURL.
  destruct σ as [d f o l].
  destruct (VideoURL video) as [ref|]; cbn [snd];
    [| exists []; rewrite app_nil_r; auto].
  destruct (Split ref ",") as [|b [|k [|]]]; cbn [snd];
    try (exists []; rewrite app_nil_r; solve [auto]).
  destruct (PresignGetObject env b k fifteen_minutes); cbn [snd emit db fs s3 log];
    exists [Presign b k]; auto.
Qed.

Lemma ordered_after_put (σ : St) :
  existsb is_put_ok (log σ) = true -> update_follows_upload false (log σ) = true ->
  in_order σ.
Proof. intros Hp Ho. split; [exact Ho | congruence]. Qed.

Lemma upload_processed_ordered (cfg : apiConfig) (env : Env) (video : Video)
    (mediatype fileName processedPath : string) (σ : St) :
  pristine σ ->
  in_order (upload_processed cfg env video mediatype fileName processedPath σ).
Proof.
  intros Hσ. unfold upload_processed.
  destruct (os_Open_failure env);
    [now apply no_upload_yet_ordered, no_upload_yet_respondWithError|].
  destruct (fs σ !! processedPath) as [processedFile|];
    [|now apply no_upload_yet_ordered, no_upload_yet_respondWithError].
  unfold getVideoAspectRatio.
  destruct (Aspect.getVideoAspectRatio _ processedPath) as [orientation [err|]].
  { apply no_upload_yet_ordered, no_upload_yet_respondWithError.
    now apply no_upload_yet_emit. }
  set (objKey := orientation ++ "/" ++ fileName).
  destruct (s3_PutObject env (s3Bucket cfg) objKey).
  { apply no_upload_yet_ordered, no_upload_yet_respondWithError.
    apply no_upload_yet_emit; auto. now apply no_upload_yet_emit. }
  destruct Hσ as (Hd & Hs & Hp & Hu).
  assert (Hfree : update_follows_upload false (log σ) = true) by now apply update_free.
  unfold UpdateVideo_db.
  set (video' := set_VideoURL video _).
  destruct (db_UpdateVideo env video').
  { apply ordered_respondWithError. apply ordered_after_put;
      cbn [emit with_s3 with_db log]; rewrite ?update_follows_upload_app, ?existsb_app;
      cbn [update_follows_upload existsb is_update is_put_ok];
      rewrite ?Hfree, ?Hp, ?orb_true_r; reflexivity. }
  match goal with |- context [dbVideoToSignedVideo env video' ?s] =>
    destruct (dbVideoToSignedVideo_quiet env video' s) as (evs & Hq & Hq1 & Hq2);
    destruct (dbVideoToSignedVideo env video' s) as [[signed serr] σ2] end.
  cbn [snd] in Hq. subst σ2.
  assert (Hord : in_order
    {| db := <[ID video' := video']> (db σ); fs := fs σ;
       s3 := <[(s3Bucket cfg, objKey) := {| ContentType := mediatype; Body := processedFile |}]> (s3 σ);
       log := (((log σ ++ [RunFfprobe processedPath]) ++ [PutObject (s3Bucket cfg) objKey true])
                ++ [UpdateVideo video' true]) ++ evs |}).
  { apply ordered_after_put; cbn [log];
      rewrite ?update_follows_upload_app, ?existsb_app;
      cbn [update_follows_upload existsb is_update is_put_ok];
      rewrite ?Hfree, ?Hp, ?orb_true_r; cbn; try reflexivity.
    now apply update_free. }
  destruct serr; [now apply ordered_respondWithError | now apply ordered_emit].
Qed.

Lemma stage_and_upload_ordered (cfg : apiConfig) (env : Env) (video : Video)
    (file : list byte) (contentType mediatype : string) (σ : St) :
  pristine σ ->
  in_order (snd (stage_and_upload cfg env video file contentType mediatype σ)).
Proof.
  intros Hσ. unfold stage_and_upload.
  destruct (Split contentType "/" !! 1%nat) as [fileExtension|];
    [|now apply no_upload_yet_ordered].
  destruct (rand_Read env 32) as [random rerr].
  set (fileName := EncodeToString _ ++ "." ++ fileExtension).
  match goal with |- context [os_CreateTemp env _ _] =>
    match goal with |- context [respondWithError _ "Error creating file" ?s] =>
      assert (Hσ1 : pristine s)
        by (destruct rerr; [now apply no_upload_yet_respondWithError | exact Hσ]);
      generalize dependent s end end.
  intros σ1 Hσ1.
  destruct (os_CreateTemp env "" "tubely-upload.mp4") as [originalFile|]; cbn [snd];
    [|now apply no_upload_yet_ordered, no_upload_yet_respondWithError].
  destruct (io_Copy env file) as [|cerr written]; cbn [snd].
  2:{ apply no_upload_yet_ordered, no_upload_yet_respondWithError, no_upload_yet_os_Remove.
      repeat first [apply no_upload_yet_write_file | apply no_upload_yet_emit]; auto. }
  match goal with |- context [processVideoForFastStart env originalFile ?s] =>
    assert (Hσ2 : pristine s)
      by (repeat first [apply no_upload_yet_write_file | apply no_upload_yet_emit]; auto);
    pose proof (no_upload_yet_processVideoForFastStart env originalFile s Hσ2) as Hσ3;
    destruct (processVideoForFastStart env originalFile s) as [[processedPath perr] σ3] end.
  cbn [snd] in Hσ3.
  destruct perr; cbn [snd].
  - apply no_upload_yet_ordered, no_upload_yet_respondWithError, no_upload_yet_os_Remove.
    exact Hσ3.
  - apply ordered_os_Remove, ordered_os_Remove. now apply upload_processed_ordered.
Qed.

Lemma handlerUploadVideo_ordered (cfg : apiConfig) (env : Env) (r : Request) (σ : St) :
  pristine σ -> in_order (snd (handlerUploadVideo cfg env r σ)).
Proof.
  intros Hσ. unfold handlerUploadVideo.
  pose proof (fun code msg (σ : St) (H : pristine σ) =>
                no_upload_yet_ordered _ (no_upload_yet_respondWithError code msg σ H)) as Hrej.
  destruct (uuid_Parse env _) as [videoID|]; [|now apply Hrej].
  destruct (GetBearerToken env _) as [token|]; [|now apply Hrej].
  destruct (ValidateJWT env token _) as [userID|]; [|now apply Hrej].
  destruct (GetVideo env σ videoID) as [video|[|]]; [|now apply Hrej..].
  destruct (negb _); [now apply Hrej|].
  destruct (FormFile_state env r σ) as [f Hf].
  destruct (FormFile env r σ) as [part σ1]. cbn [snd] in Hf. subst σ1.
  apply (no_upload_yet_with_fs f) in Hσ.
  destruct part as [[file contentType]|]; [|now apply Hrej].
  destruct (ParseMediaType env contentType) as [mediatype|]; [|now apply Hrej].
  destruct (negb _); [now apply Hrej|].
  now apply stage_and_upload_ordered.
Qed.

End UploadOrder.


Section UploadClaims.
Import GoLib Upload.

(** In every run of the handler a record update comes only after a
    successful object write; and in a run without a successful object write
    the record store and the object store end as they began and no record
    update was attempted. *)
Lemma reference_written_only_after_upload (cfg : apiConfig) (env : Env) (r : Request)
    (db0 : gmap UUID Video) (fs0 : gmap string (list byte))
    (s30 : gmap (string * string) S3Object) :
  let σ' := snd (handlerUploadVideo cfg env r (boot db0 fs0 s30)) in
  update_follows_upload false (log σ') = true
  /\ (existsb is_put_ok (log σ') = false ->
        db σ' = db0 /\ s3 σ' = s30 /\ existsb is_update (log σ') = false).
Proof.
  apply handlerUploadVideo_ordered. repeat split.
Qed.

(** C8.  A request whose authenticated caller is not the owner of the
    record, and a request whose part declares a media type other than
    [video/mp4], gets one error response, which is the only thing the handler
    does: it creates and fills no staging file and writes no object, and the
    record store and the object store are unchanged.  For the caller who is
    not the owner the file system is unchanged too.  For the other media
    type it is unchanged when the part has at most [defaultMaxMemory] bytes;
    a longer part has been written by [r.FormFile] to its [multipart-] file
    before the media type is looked at, and that file is the only change. *)
Theorem rejected_before_staging (cfg : apiConfig) (env : Env) (r : Request)
    (db0 : gmap UUID Video) (fs0 : gmap string (list byte))
    (s30 : gmap (string * string) S3Object) :
  caller_is_not_owner cfg env r db0 \/ media_type_is_not_mp4 env r ->
  let σ' := snd (handlerUploadVideo cfg env r (boot db0 fs0 s30)) in
  (exists code msg, 400 <= code /\ log σ' = [RespondError code msg])
  /\ existsb is_staging (log σ') = false
  /\ existsb is_put (log σ') = false
  /\ s3 σ' = s30 /\ db σ' = db0
  /\ (caller_is_not_owner cfg env r db0 -> fs σ' = fs0)
  /\ (forall file contentType,
        FormFile_video r = inl (file, contentType) ->
        Z.of_nat (length file) <= defaultMaxMemory -> fs σ' = fs0)
  /\ (fs σ' = fs0
      \/ exists file contentType name,
           FormFile_video r = inl (file, contentType)
           /\ defaultMaxMemory < Z.of_nat (length file)
           /\ os_CreateTemp env "" "multipart-" = inl name
           /\ fs σ' = <[name := file]> fs0).
Proof.
  intros Hrej σ'.
  assert (Hone : exists code msg f, 400 <= code
            /\ σ' = respondWithError code msg (boot db0 f s30)
            /\ (caller_is_not_owner cfg env r db0 -> f = fs0)
            /\ (f = fs0
                \/ exists file contentType name,
                     FormFile_video r = inl (file, contentType)
                     /\ defaultMaxMemory < Z.of_nat (length file)
                     /\ os_CreateTemp env "" "multipart-" = inl name
                     /\ f = <[name := file]> fs0)).
  { subst σ'. unfold handlerUploadVideo, GetVideo.
    assert (Hdone : forall code msg, 400 <= code -> exists code' msg' f, 400 <= code'
              /\ respondWithError code msg (boot db0 fs0 s30)
                 = respondWithError code' msg' (boot db0 f s30)
              /\ (caller_is_not_owner cfg env r db0 -> f = fs0)
              /\ (f = fs0
                  \/ exists file contentType name,
                       FormFile_video r = inl (file, contentType)
                       /\ defaultMaxMemory < Z.of_nat (length file)
                       /\ os_CreateTemp env "" "multipart-" = inl name
                       /\ f = <[name := file]> fs0))
      by (intros code msg Hc; exists code, msg, fs0; auto).
    destruct (uuid_Parse env _) as [videoID|] eqn:Hid; [|now apply Hdone].
    destruct (GetBearerToken env _) as [token|] eqn:Htok; [|now apply Hdone].
    destruct (ValidateJWT env token _) as [userID|] eqn:Hjwt; [|now apply Hdone].
    destruct (db_read_failure env); [now apply Hdone|].
    cbn [boot db].
    destruct (db0 !! videoID) as [video|] eqn:Hget; [|now apply Hdone].
    destruct (N.eqb_spec (UserID video) userID) as [Hown|Hown]; cbn [negb];
      [|now apply Hdone].
    assert (Howner : ~ caller_is_not_owner cfg env r db0)
      by (intros (id' & tok' & uid' & v' & H1 & H2 & H3 & H4 & H5); congruence).
    destruct (FormFile_state env r (boot db0 fs0 s30)) as [f Hf].
    pose proof (FormFile_fs env r (boot db0 fs0 s30)) as Hfs.
    pose proof (FormFile_part env r (boot db0 fs0 s30)) as Hpart.
    fold (boot db0 fs0 s30).
    destruct (FormFile env r (boot db0 fs0 s30)) as [part σ1].
    cbn [fst snd] in Hf, Hfs, Hpart. subst σ1. cbn [with_fs boot fs db s3 log] in Hfs |- *.
    fold (boot db0 f s30).
    assert (Hafter : forall code msg, 400 <= code -> exists code' msg' f', 400 <= code'
              /\ respondWithError code msg (boot db0 f s30)
                 = respondWithError code' msg' (boot db0 f' s30)
              /\ (caller_is_not_owner cfg env r db0 -> f' = fs0)
              /\ (f' = fs0
                  \/ exists file contentType name,
                       FormFile_video r = inl (file, contentType)
                       /\ defaultMaxMemory < Z.of_nat (length file)
                       /\ os_CreateTemp env "" "multipart-" = inl name
                       /\ f' = <[name := file]> fs0))
      by (intros code msg Hc; exists code, msg, f; repeat split; tauto).
    destruct part as [[file contentType]|]; [|now apply Hafter].
    destruct (ParseMediaType env contentType) as [mediatype|] eqn:Hmedia; [|now apply Hafter].
    destruct (String.eqb_spec mediatype "video/mp4") as [Hmp4|Hmp4]; cbn [negb];
      [|now apply Hafter].
    exfalso. destruct Hrej as [Hno|(file' & ct' & H1 & H2)]; [exact (Howner Hno)|].
    rewrite (Hpart file contentType eq_refl) in H1. injection H1 as <- <-. congruence. }
  destruct Hone as (code & msg & f & Hcode & -> & Hno & Hfs).
  cbn. repeat split; eauto.
  intros file contentType Hform Hsize.
  destruct Hfs as [->|(file' & ct' & name & Hform' & Hsize' & _)]; [reflexivity|].
  rewrite Hform in Hform'. injection Hform' as <- <-. lia.
Qed.

End UploadClaims.

(* ===================================================================== *)
(** ** The handler on concrete requests *)
(* ===================================================================== *)

Section Scenarios.
Import GoLib Upload Scenario.


Lemma rejected_before_staging_witness :
  (caller_is_not_owner cfg0 env_ok (request "stranger-token" clip "video/mp4") db0
   \/ media_type_is_not_mp4 env_ok (request "stranger-token" clip "video/mp4"))
  /\ (caller_is_not_owner cfg0 env_ok (request "owner-token" clip "image/png") db0
      \/ media_type_is_not_mp4 env_ok (request "owner-token" clip "image/png"))
  /\ existsb is_staging
       (log (snd (handlerUploadVideo cfg0 env_ok (request "stranger-token" clip "video/mp4")
                    (boot db0 ∅ ∅)))) = false
  /\ existsb is_staging
       (log (snd (handlerUploadVideo cfg0 env_ok (request "owner-token" clip "image/png")
                    (boot db0 ∅ ∅)))) = false.
Proof.
  assert (H1 : caller_is_not_owner cfg0 env_ok (request "stranger-token" clip "video/mp4") db0
               \/ media_type_is_not_mp4 env_ok (request "stranger-token" clip "video/mp4")).
  { left. exists videoID, "stranger-token", stranger, video0. repeat split; discriminate. }
  assert (H2 : caller_is_not_owner cfg0 env_ok (request "owner-token" clip "image/png") db0
               \/ media_type_is_not_mp4 env_ok (request "owner-token" clip "image/png")).
  { right. exists clip, "image/png". split; [reflexivity | discriminate]. }
  split; [exact H1|]. split; [exact H2|]. split.
  - exact (proj1 (proj2 (rejected_before_staging cfg0 env_ok _ db0 ∅ ∅ H1))).
  - exact (proj1 (proj2 (rejected_before_staging cfg0 env_ok _ db0 ∅ ∅ H2))).
Defined.

Lemma presign_rejects_by_comma_count_witness :
  VideoURL (video_with "tubely") = Some "tubely"
  /\ Count "tubely" "," <> 1%nat
  /\ dbVideoToSignedVideo env_ok (video_with "tubely") (boot db0 ∅ ∅)
     = ((video_with "tubely", Some format_error), boot db0 ∅ ∅).
Proof.
  assert (Href : VideoURL (video_with "tubely") = Some "tubely") by reflexivity.
  assert (Hc : Count "tubely" "," <> 1%nat) by discriminate.
  split; [exact Href|]. split; [exact Hc|].
  exact (proj1 (presign_rejects_by_comma_count env_ok (video_with "tubely") "tubely"
                  (boot db0 ∅ ∅) Href) Hc).
Defined.

Lemma FormFile_request (env : Env) (token : string) (file : list byte)
    (contentType : string) (σ : St) :
  FormFile env (request token file contentType) σ
  = if defaultMaxMemory <? Z.of_nat (length file)
    then match os_CreateTemp env "" "multipart-" with
         | inr err => (inr err, σ)
         | inl name => (inl (file, contentType), write_file name file σ)
         end
    else (inl (file, contentType), σ).
Proof. reflexivity. Qed.

(** C2.  The handler stages and uploads a body of any length: whatever
    bytes the request carries, all of them are copied to the temporary file
    and become the object's body, and the answer is 200.  [uploadLimit]
    plays no part, so a body longer than it is staged whole as well. *)
Theorem upload_of_any_size_is_staged (file : list byte) :
  let σ' := snd (handlerUploadVideo cfg0 env_ok (request "owner-token" file "video/mp4")
                   (boot db0 ∅ ∅)) in
  responses (log σ')
  = [RespondJSON 200 (set_VideoURL video0
       ("https://tubely.s3.amazonaws.com/" ++ key_mp4 ++ "?X-Amz-Expires=900"))]
  /\ In (CopyTo tmp file) (log σ')
  /\ s3 σ' !! ("tubely", key_mp4) = Some {| ContentType := "video/mp4"; Body := file |}
  /\ (uploadLimit < Z.of_nat (length file) ->
        exists staged, In (CopyTo tmp staged) (log σ')
                       /\ uploadLimit < Z.of_nat (length staged)).
Proof.
  intros σ'.
  assert (Hrun : responses (log σ')
            = [RespondJSON 200 (set_VideoURL video0
                 ("https://tubely.s3.amazonaws.com/" ++ key_mp4 ++ "?X-Amz-Expires=900"))]
            /\ In (CopyTo tmp file) (log σ')
            /\ s3 σ' !! ("tubely", key_mp4)
               = Some {| ContentType := "video/mp4"; Body := file |}).
  { subst σ'. unfold handlerUploadVideo. rewrite FormFile_request.
    destruct (defaultMaxMemory <? Z.of_nat (length file)); vm_compute;
      (split; [reflexivity|]); (split; [tauto | reflexivity]). }
  destruct Hrun as (Hresp & Hlog & Hobj).
  split; [exact Hresp|]. split; [exact Hlog|]. split; [exact Hobj|].
  intros Hbig. exists file. split; [exact Hlog | exact Hbig].
Qed.

(** C3.  With a random source that fails, the handler writes the 500
    response for it and carries on: the file is staged, remuxed, probed and
    uploaded, the record is updated, and a second response (200) is
    written. *)
Lemma random_failure_does_not_stop_the_pipeline :
  let σ' := snd (handlerUploadVideo cfg0 (env_with rand_broken remux_copy hd_1080)
                   (request "owner-token" clip "video/mp4") (boot db0 ∅ ∅)) in
  log σ'
  = [RespondError 500 "Error creating random file name";
     CreateTemp tmp;
     CopyTo tmp clip;
     RunFfmpeg tmp (tmp ++ ".processing") true;
     RunFfprobe (tmp ++ ".processing");
     PutObject "tubely" key_mp4 true;
     UpdateVideo (set_VideoURL video0 ("tubely," ++ key_mp4)) true;
     Presign "tubely" key_mp4;
     RespondJSON 200 (set_VideoURL video0
       ("https://tubely.s3.amazonaws.com/" ++ key_mp4 ++ "?X-Amz-Expires=900"));
     Remove (tmp ++ ".processing");
     Remove tmp]
  /\ length (responses (log σ')) = 2%nat
  /\ db σ' !! videoID = Some (set_VideoURL video0 ("tubely," ++ key_mp4))
  /\ s3 σ' !! ("tubely", key_mp4) = Some {| ContentType := "video/mp4"; Body := clip |}.
Proof. vm_compute. repeat split; reflexivity. Qed.

(** C6.  A request can fail before the upload and overwrite the record
    all the same.  With a random source that fails, the first thing the
    handler does is to answer 500 for it, before any file is staged and any
    object is written; it then carries on, and at the end of the run the
    record, which had no storage reference, holds a new one. *)
Lemma failed_request_overwrites_the_record :
  let σ' := snd (handlerUploadVideo cfg0 (env_with rand_broken remux_copy hd_1080)
                   (request "owner-token" clip "video/mp4") (boot db0 ∅ ∅)) in
  (exists rest,
     log σ' = RespondError 500 "Error creating random file name" :: rest
     /\ In (PutObject "tubely" key_mp4 true) rest
     /\ In (UpdateVideo (set_VideoURL video0 ("tubely," ++ key_mp4)) true) rest)
  /\ db0 !! videoID = Some video0
  /\ VideoURL video0 = None
  /\ db σ' !! videoID = Some (set_VideoURL video0 ("tubely," ++ key_mp4))
  /\ VideoURL (set_VideoURL video0 ("tubely," ++ key_mp4)) = Some ("tubely," ++ key_mp4).
Proof.
  vm_compute. split; [|repeat split; reflexivity].
  eexists. split; [reflexivity|]. split; tauto.
Qed.

Lemma long_part_rejected (file : list byte) :
  (defaultMaxMemory <? Z.of_nat (length file)) = true ->
  snd (handlerUploadVideo cfg0 env_ok (request "owner-token" file "image/png")
         (boot db0 ∅ ∅))
  = respondWithError 400 "Media type is not allowed"
      (write_file "/tmp/multipart-4217" file (boot db0 ∅ ∅)).
Proof.
  intros Hbig. unfold handlerUploadVideo. rewrite FormFile_request, Hbig.
  vm_compute. reflexivity.
Qed.

(** C8, as stated, fails for a long part.  The owner sends a part of
    [defaultMaxMemory + 1] bytes declared [image/png]: the request is
    rejected for its media type with one response, and by then [r.FormFile]
    has written the part to a temporary file, which is there when the
    handler returns. *)
Lemma long_rejected_part_is_on_disk :
  let part := repeat Byte.x00 (Z.to_nat (defaultMaxMemory + 1)) in
  let r := request "owner-token" part "image/png" in
  let σ' := snd (handlerUploadVideo cfg0 env_ok r (boot db0 ∅ ∅)) in
  media_type_is_not_mp4 env_ok r
  /\ Z.of_nat (length part) = 33554433
  /\ log σ' = [RespondError 400 "Media type is not allowed"]
  /\ os_CreateTemp env_ok "" "multipart-" = inl "/tmp/multipart-4217"
  /\ fs σ' !! "/tmp/multipart-4217" = Some part.
Proof.
  intros part r σ'.
  assert (Hlen : Z.of_nat (length part) = 33554433).
  { unfold part. rewrite repeat_length, Z2Nat.id; [reflexivity | discriminate]. }
  split; [exists part, "image/png"; split; [reflexivity | discriminate]|].
  split; [exact Hlen|].
  assert (Hbig : (defaultMaxMemory <? Z.of_nat (length part)) = true)
    by (rewrite Hlen; reflexivity).
  unfold σ', r. rewrite (long_part_rejected part Hbig).
  split; [reflexivity|]. split; [reflexivity|].
  cbn [respondWithError emit write_file with_fs fs boot]. apply lookup_insert_eq.
Qed.

(** C5.  For the accepted header [video/mp4; codecs=avc1] the extension in
    the object key and in the persisted reference is the header text after
    the slash, parameters included, not [mp4]. *)
Lemma extension_keeps_header_parameters :
  let σ' := snd (handlerUploadVideo cfg0 env_ok
                   (request "owner-token" clip "video/mp4; codecs=avc1") (boot db0 ∅ ∅)) in
  ParseMediaType env_ok "video/mp4; codecs=avc1" = inl "video/mp4"
  /\ Split "video/mp4; codecs=avc1" "/" !! 1%nat = Some "mp4; codecs=avc1"
  /\ db σ' !! videoID
     = Some (set_VideoURL video0 ("tubely,landscape/" ++ name43 ++ ".mp4; codecs=avc1"))
  /\ s3 σ' !! ("tubely", "landscape/" ++ name43 ++ ".mp4; codecs=avc1")
     = Some {| ContentType := "video/mp4"; Body := clip |}
  /\ s3 σ' !! ("tubely", key_mp4) = None.
Proof. vm_compute. repeat split; reflexivity. Qed.

(** C7.  When the remux tool fails after it has begun to write its output,
    the handler removes the staged file only; the output file is still
    there when the request ends. *)
Lemma failed_remux_leaves_its_output :
  let σ' := snd (handlerUploadVideo cfg0 (env_with rand_zeros remux_breaks hd_1080)
                   (request "owner-token" clip "video/mp4") (boot db0 ∅ ∅)) in
  log σ'
  = [CreateTemp tmp;
     CopyTo tmp clip;
     RunFfmpeg tmp (tmp ++ ".processing") false;
     Remove tmp;
     RespondError 500 "Error processing video for fast start"]
  /\ fs σ' !! tmp = None
  /\ fs σ' !! (tmp ++ ".processing") = Some [Byte.x00; Byte.x00].
Proof. vm_compute. repeat split; reflexivity. Qed.

(** C4, as stated, fails: the reference [,key] has an empty bucket, yet it
    is no format error; it is presigned with the empty bucket. *)
Lemma empty_bucket_is_presigned :
  Split ",key" "," = [""; "key"]
  /\ dbVideoToSignedVideo env_ok (video_with ",key") (boot db0 ∅ ∅)
     = ((set_VideoURL (video_with ",key") "https://.s3.amazonaws.com/key?X-Amz-Expires=900",
         None),
        emit (Presign "" "key") (boot db0 ∅ ∅)).
Proof. split; reflexivity. Qed.


End Scenarios.

(* ===================================================================== *)
(** ** Further properties of the aspect classifier *)
(* ===================================================================== *)

Section AspectExtras.
Import Aspect.

Lemma classify_exact (w h : Z) :
  0 < w <= max_dim -> 0 < h <= max_dim ->
  classify w h = if near_landscape w h then "landscape"
                 else if near_portrait w h then "portrait" else "other".
Proof.
  intros Hw Hh. destruct (approx_exact w h Hw Hh) as [Hl Hp].
  unfold classify, classify_ratio. now rewrite Hl, Hp.
Qed.

(** X1.  For dimensions from 1 to [max_dim] the label depends on the ratio
    only: two streams with the same ratio [w/h = w'/h'] get the same label,
    so scaling a resolution up or down does not change the orientation. *)
Theorem classify_depends_on_ratio (w h w' h' : Z) :
  0 < w <= max_dim -> 0 < h <= max_dim -> 0 < w' <= max_dim -> 0 < h' <= max_dim ->
  w * h' = w' * h -> classify w h = classify w' h'.
Proof.
  intros Hw Hh Hw' Hh' Hr. rewrite !classify_exact by assumption.
  assert (Hl : near_landscape w h = near_landscape w' h').
  { unfold near_landscape. apply eq_true_iff_eq.
    rewrite !andb_true_iff, !Z.leb_le, !Z.ltb_lt. split; intros [? ?]; split; nia. }
  assert (Hp : near_portrait w h = near_portrait w' h').
  { unfold near_portrait. apply eq_true_iff_eq.
    rewrite !andb_true_iff, !Z.ltb_lt. split; intros [? ?]; split; nia. }
  now rewrite Hl, Hp.
Qed.

(** X2.  For dimensions from 1 to [max_dim], a stream labelled [landscape]
    is labelled [portrait] once its width and height are swapped. *)
Theorem landscape_rotated_is_portrait (w h : Z) :
  0 < w <= max_dim -> 0 < h <= max_dim ->
  classify w h = "landscape" -> classify h w = "portrait".
Proof.
  intros Hw Hh. rewrite !classify_exact by assumption.
  unfold near_landscape, near_portrait.
  destruct (Z.leb_spec (311 * h) (180 * w)); cbn [andb];
    [destruct (Z.ltb_spec (180 * w) (329 * h)); cbn [andb]|].
  - intros _.
    destruct (Z.leb_spec (311 * w) (180 * h)); cbn [andb]; [lia|].
    destruct (Z.ltb_spec (41 * w) (80 * h)); cbn [andb]; [|lia].
    destruct (Z.ltb_spec (80 * h) (49 * w)); [reflexivity | lia].
  - destruct (_ && _); discriminate.
  - destruct (_ && _); discriminate.
Qed.

Lemma classify_depends_on_ratio_witness :
  (0 < 1920 <= max_dim) /\ (0 < 1080 <= max_dim)
  /\ (0 < 1280 <= max_dim) /\ (0 < 720 <= max_dim)
  /\ 1920 * 720 = 1280 * 1080
  /\ classify 1920 1080 = classify 1280 720.
Proof.
  assert (H1 : 0 < 1920 <= max_dim) by (unfold max_dim; lia).
  assert (H2 : 0 < 1080 <= max_dim) by (unfold max_dim; lia).
  assert (H3 : 0 < 1280 <= max_dim) by (unfold max_dim; lia).
  assert (H4 : 0 < 720 <= max_dim) by (unfold max_dim; lia).
  assert (H5 : 1920 * 720 = 1280 * 1080) by reflexivity.
  repeat (split; [assumption|]).
  exact (classify_depends_on_ratio 1920 1080 1280 720 H1 H2 H3 H4 H5).
Defined.

Lemma landscape_rotated_is_portrait_witness :
  (0 < 1920 <= max_dim) /\ (0 < 1080 <= max_dim)
  /\ classify 1920 1080 = "landscape"
  /\ classify 1080 1920 = "portrait".
Proof.
  assert (H1 : 0 < 1920 <= max_dim) by (unfold max_dim; lia).
  assert (H2 : 0 < 1080 <= max_dim) by (unfold max_dim; lia).
  assert (H3 : classify 1920 1080 = "landscape") by reflexivity.
  repeat (split; [assumption|]).
  exact (landscape_rotated_is_portrait 1920 1080 H1 H2 H3).
Defined.

End AspectExtras.

(* ===================================================================== *)
(** ** File names, references and the remux step *)
(* ===================================================================== *)

Section Names.
Import GoLib Upload Reading.

Lemma encode_at_url_safe (v : N) : (v < 64)%N -> url_safe (encode_at v) = true.
Proof.
  intros Hv.
  assert (Hall : forallb (fun n => url_safe (encode_at (N.of_nat n))) (seq 0 64) = true)
    by (vm_compute; reflexivity).
  rewrite forallb_forall in Hall.
  rewrite <- (N2Nat.id v). apply Hall. apply in_seq. lia.
Qed.

Lemma sextet_url_safe (val shift : N) : url_safe (sextet val shift) = true.
Proof.
  unfold sextet. apply encode_at_url_safe.
  change 63%N with (N.ones 6). rewrite N.land_ones. now apply N.mod_lt.
Qed.

Lemma by_threes (P : list byte -> Prop) :
  P [] -> (forall a, P [a]) -> (forall a b, P [a; b]) ->
  (forall a b c l, P l -> P (a :: b :: c :: l)) ->
  forall l, P l.
Proof.
  intros H0 H1 H2 H3 l.
  assert (H : P l /\ (forall a, P (a :: l)) /\ (forall a b, P (a :: b :: l))).
  { induction l as [|c l (IH0 & IH1 & IH2)]; [auto|].
    split; [apply IH1|]. split; [intros a; apply IH2|]. intros a b. now apply H3. }
  apply H.
Qed.

Lemma EncodeToString_url_safe (src : list byte) : all_url_safe (EncodeToString src) = true.
Proof.
  induction src as [|a|a b|a b c l IH] using by_threes; unfold all_url_safe in *;
    cbn [EncodeToString list_ascii_of_string forallb]; rewrite ?sextet_url_safe; auto.
Qed.

Lemma EncodeToString_length (src : list byte) :
  String.length (EncodeToString src) = ((4 * length src + 2) / 3)%nat.
Proof.
  induction src as [|a|a b|a b c l IH] using by_threes; try reflexivity.
  cbn [EncodeToString String.length length]. rewrite IH.
  replace (4 * S (S (S (length l))) + 2)%nat with (4 * length l + 2 + 4 * 3)%nat by lia.
  rewrite Nat.div_add by discriminate. lia.
Qed.

Lemma read_into_length (dst src : list byte) : length (read_into dst src) = length dst.
Proof.
  unfold read_into. rewrite length_take, length_app, length_drop. lia.
Qed.

Lemma random_name_shape (random : list byte) :
  String.length (EncodeToString (read_into (make 32) random)) = 43%nat
  /\ all_url_safe (EncodeToString (read_into (make 32) random)) = true.
Proof.
  split; [|apply EncodeToString_url_safe].
  rewrite EncodeToString_length, read_into_length. reflexivity.
Qed.

Lemma append_cons (c : ascii) (a b : string) : String c a ++ b = String c (a ++ b).
Proof. reflexivity. Qed.

Lemma Count_app (a b : string) (sep : ascii) :
  Count (a ++ b) sep = (Count a sep + Count b sep)%nat.
Proof.
  induction a as [|c a IH]; [reflexivity|].
  rewrite append_cons. cbn [Count]. rewrite IH. lia.
Qed.

Lemma Split_no_sep (s : string) (sep : ascii) : Count s sep = 0%nat -> Split s sep = [s].
Proof.
  induction s as [|c s IH]; cbn [Count Split]; [reflexivity|].
  destruct (Ascii.eqb c sep); [discriminate|]. intros Hc. now rewrite IH.
Qed.

Lemma Split_app_sep (a b : string) (sep : ascii) :
  Count a sep = 0%nat -> Split (a ++ String sep b) sep = a :: Split b sep.
Proof.
  induction a as [|c a IH].
  - intros _. change ("" ++ String sep b) with (String sep b). cbn [Split].
    now rewrite Ascii.eqb_refl.
  - rewrite append_cons. cbn [Count Split].
    destruct (Ascii.eqb c sep); [discriminate|]. intros Hc. now rewrite IH.
Qed.

End Names.

Section Pieces.
Import GoLib Upload Reading.

Lemma length_append (a b : string) :
  String.length (a ++ b) = (String.length a + String.length b)%nat.
Proof.
  induction a as [|c a IH]; [reflexivity|].
  rewrite append_cons. cbn [String.length]. now rewrite IH.
Qed.

Lemma append_ne_self (s t : string) : t <> "" -> s ++ t <> s.
Proof.
  intros Ht Heq. apply (f_equal String.length) in Heq.
  rewrite length_append in Heq. destruct t; [congruence | cbn in Heq; lia].
Qed.

(** X4.  The reference the upload handler writes, [bucket ++ "," ++ key],
    is read back by the presigned view as exactly that bucket and that key
    when neither contains a comma; when the bucket or the key contains a
    comma, the same reference is a format error. *)
Theorem reference_round_trip (env : Env) (video : Video) (bucket key : string) (σ : St) :
  let stored := set_VideoURL video (bucket ++ "," ++ key) in
  (Count bucket "," = 0%nat /\ Count key "," = 0%nat ->
     snd (dbVideoToSignedVideo env stored σ) = emit (Presign bucket key) σ
     /\ fst (dbVideoToSignedVideo env stored σ)
        = match PresignGetObject env bucket key fifteen_minutes with
          | inl url => (set_VideoURL video url, None)
          | inr err => (stored, Some ("failed to generate presigned URL: "
                                       ++ "failed to generate presigned URL: " ++ err))
          end)
  /\ (Count bucket "," <> 0%nat \/ Count key "," <> 0%nat ->
     dbVideoToSignedVideo env stored σ = ((stored, Some format_error), σ)).
Proof.
  intros stored. split.
  - intros [Hb Hk]. unfold dbVideoToSignedVideo, generatePresignedURL. cbn [stored set_VideoURL VideoURL].
    change (bucket ++ "," ++ key) with (bucket ++ String "," key).
    rewrite Split_app_sep, (Split_no_sep key) by assumption.
    destruct (PresignGetObject env bucket key fifteen_minutes); split; reflexivity.
  - intros Hc. unfold dbVideoToSignedVideo. cbn [stored set_VideoURL VideoURL].
    pose proof (Split_length (bucket ++ "," ++ key) ",") as Hlen.
    change (bucket ++ "," ++ key) with (bucket ++ String "," key) in *.
    rewrite Count_app in Hlen. cbn [Count] in Hlen. rewrite Ascii.eqb_refl in Hlen.
    destruct (Split (bucket ++ String "," key) ",") as [|b [|k [|]]]; try reflexivity.
    cbn [length] in Hlen. lia.
Qed.

End Pieces.

(* ===================================================================== *)
(** ** Responses, record updates and temporary files of the upload handler *)
(* ===================================================================== *)

Section Responses.
Import GoLib Upload Reading.

Lemma nresp_emit (e : Event) (σ : St) :
  nresp (emit e σ) = (nresp σ + if is_response e then 1 else 0)%nat.
Proof.
  unfold nresp, responses. cbn [emit log]. rewrite List.filter_app, length_app.
  cbn [List.filter]. now destruct (is_response e).
Qed.

Lemma nresp_respondWithError (code : Z) (msg : string) (σ : St) :
  nresp (respondWithError code msg σ) = S (nresp σ).
Proof. unfold respondWithError. rewrite nresp_emit. cbn. lia. Qed.

Lemma nresp_os_Remove (name : string) (σ : St) : nresp (os_Remove name σ) = nresp σ.
Proof.
  unfold os_Remove. change (nresp (with_fs ?f ?s)) with (nresp s).
  rewrite nresp_emit. cbn. lia.
Qed.

Lemma dbVideoToSignedVideo_state (env : Env) (video : Video) (σ : St) :
  snd (dbVideoToSignedVideo env video σ) = σ
  \/ exists bucket key, snd (dbVideoToSignedVideo env video σ) = emit (Presign bucket key) σ.
Proof.
  unfold dbVideoToSignedVideo, generatePresignedURL.
  destruct (VideoURL video) as [ref|]; [|now left].
  destruct (Split ref ",") as [|b [|k [|]]]; try (now left).
  right. exists b, k. now destruct (PresignGetObject env b k fifteen_minutes).
Qed.

Lemma processVideoForFastStart_nresp (env : Env) (filePath : string) (σ : St) :
  nresp (snd (processVideoForFastStart env filePath σ)) = nresp σ.
Proof.
  unfold processVideoForFastStart.
  destruct (ffmpeg env (fs σ !! filePath)) as [output|e [bytes|]]; cbn [snd];
    unfold write_file; change (nresp (with_fs ?f ?s)) with (nresp s);
    rewrite nresp_emit; cbn; lia.
Qed.

Lemma upload_processed_nresp (cfg : apiConfig) (env : Env) (video : Video)
    (mediatype fileName processedPath : string) (σ : St) :
  nresp (upload_processed cfg env video mediatype fileName processedPath σ) = S (nresp σ).
Proof.
  unfold upload_processed.
  destruct (os_Open_failure env); [apply nresp_respondWithError|].
  destruct (fs σ !! processedPath) as [processedFile|]; [|apply nresp_respondWithError].
  unfold getVideoAspectRatio.
  destruct (Aspect.getVideoAspectRatio _ processedPath) as [orientation [err|]].
  { rewrite nresp_respondWithError, nresp_emit. cbn. lia. }
  set (objKey := orientation ++ "/" ++ fileName).
  destruct (s3_PutObject env (s3Bucket cfg) objKey).
  { rewrite nresp_respondWithError, !nresp_emit. cbn. lia. }
  unfold UpdateVideo_db.
  set (video' := set_VideoURL video _).
  destruct (db_UpdateVideo env video').
  { rewrite nresp_respondWithError, nresp_emit.
    change (nresp (with_s3 ?f ?s)) with (nresp s). rewrite !nresp_emit. cbn. lia. }
  match goal with |- context [dbVideoToSignedVideo env video' ?s] =>
    pose proof (dbVideoToSignedVideo_state env video' s) as Hq;
    assert (Hs : nresp s = nresp σ)
      by (change (nresp (with_db ?f ?t)) with (nresp t); rewrite nresp_emit;
          change (nresp (with_s3 ?f ?t)) with (nresp t); rewrite !nresp_emit; cbn; lia);
    destruct (dbVideoToSignedVideo env video' s) as [[signed serr] σ2] end.
  cbn [snd] in Hq.
  assert (Hσ2 : nresp σ2 = nresp σ).
  { destruct Hq as [->|(b & k & ->)]; [exact Hs|]. rewrite nresp_emit, Hs. cbn. lia. }
  destruct serr; [now rewrite nresp_respondWithError, Hσ2|].
  unfold respondWithJSON. rewrite nresp_emit, Hσ2. cbn. lia.
Qed.

Lemma stage_and_upload_nresp (cfg : apiConfig) (env : Env) (video : Video)
    (file : list byte) (contentType mediatype : string) (σ : St) :
  let run := stage_and_upload cfg env video file contentType mediatype σ in
  (fst run = Panicked -> snd run = σ)
  /\ (fst run = Returned ->
        nresp (snd run)
        = (nresp σ + 1 + match snd (rand_Read env 32) with Some _ => 1 | None => 0 end)%nat).
Proof.
  unfold stage_and_upload.
  destruct (Split contentType "/" !! 1%nat) as [fileExtension|]; cbn zeta;
    [|split; [reflexivity | discriminate]].
  destruct (rand_Read env 32) as [random rerr]. cbn [snd].
  set (fileName := EncodeToString _ ++ "." ++ fileExtension).
  match goal with |- context [respondWithError _ "Error creating file" ?s] =>
    assert (Hσ1 : nresp s = (nresp σ + match rerr with Some _ => 1 | None => 0 end)%nat)
      by (destruct rerr; [rewrite nresp_respondWithError; lia | lia]);
    generalize dependent s end.
  intros σ1 Hσ1.
  destruct (os_CreateTemp env "" "tubely-upload.mp4") as [originalFile|]; cbn [fst snd].
  2:{ split; [discriminate|]. intros _. rewrite nresp_respondWithError. lia. }
  destruct (io_Copy env file) as [|cerr written]; cbn [fst snd].
  2:{ split; [discriminate|]. intros _.
      rewrite nresp_respondWithError, nresp_os_Remove. unfold write_file.
      change (nresp (with_fs ?f ?s)) with (nresp s). rewrite nresp_emit.
      change (nresp (with_fs ?f ?s)) with (nresp s). rewrite nresp_emit. cbn. lia. }
  match goal with |- context [processVideoForFastStart env originalFile ?s] =>
    assert (Hσ2 : nresp s = nresp σ1)
      by (unfold write_file; change (nresp (with_fs ?f ?t)) with (nresp t);
          rewrite nresp_emit; change (nresp (with_fs ?f ?t)) with (nresp t);
          rewrite nresp_emit; cbn; lia);
    pose proof (processVideoForFastStart_nresp env originalFile s) as Hσ3;
    destruct (processVideoForFastStart env originalFile s) as [[processedPath perr] σ3] end.
  cbn [snd] in Hσ3.
  destruct perr; cbn [fst snd]; (split; [discriminate|]); intros _.
  - rewrite nresp_respondWithError, nresp_os_Remove. lia.
  - rewrite !nresp_os_Remove, upload_processed_nresp. lia.
Qed.

(** X5.  A run of the upload handler that returns writes one response,
    or two; it writes one whenever the random source reports no error.  A
    run that panics (no slash in the header to take the extension from) has
    written nothing. *)
Theorem one_response_per_request (cfg : apiConfig) (env : Env) (r : Request)
    (db0 : gmap UUID Video) (fs0 : gmap string (list byte))
    (s30 : gmap (string * string) S3Object) :
  let run := handlerUploadVideo cfg env r (boot db0 fs0 s30) in
  (fst run = Panicked -> log (snd run) = [])
  /\ (fst run = Returned ->
        (1 <= length (responses (log (snd run))) <= 2)%nat
        /\ (snd (rand_Read env 32) = None -> length (responses (log (snd run))) = 1%nat)).
Proof.
  intros run. subst run. unfold handlerUploadVideo.
  assert (Hrej : forall code msg f,
    let run := (Returned, respondWithError code msg (boot db0 f s30)) in
    (fst run = Panicked -> log (snd run) = [])
    /\ (fst run = Returned ->
          (1 <= length (responses (log (snd run))) <= 2)%nat
          /\ (snd (rand_Read env 32) = None -> length (responses (log (snd run))) = 1%nat))).
  { intros code msg f. cbn. split; [discriminate|]. intros _. split; [lia | reflexivity]. }
  destruct (uuid_Parse env _) as [videoID|]; [|apply Hrej].
  destruct (GetBearerToken env _) as [token|]; [|apply Hrej].
  destruct (ValidateJWT env token _) as [userID|]; [|apply Hrej].
  destruct (GetVideo env _ videoID) as [video|[|]]; [|apply Hrej..].
  destruct (negb _); [apply Hrej|].
  destruct (FormFile_state env r (boot db0 fs0 s30)) as [f Hf].
  destruct (FormFile env r (boot db0 fs0 s30)) as [part σ1]. cbn [snd] in Hf. subst σ1.
  change (with_fs f (boot db0 fs0 s30)) with (boot db0 f s30).
  destruct part as [[file contentType]|]; [|apply Hrej].
  destruct (ParseMediaType env contentType) as [mediatype|]; [|apply Hrej].
  destruct (negb _); [apply Hrej|].
  destruct (stage_and_upload_nresp cfg env video file contentType mediatype
              (boot db0 f s30)) as [Hp Hr].
  split.
  - intros H. now rewrite (Hp H).
  - intros H. specialize (Hr H). unfold nresp in Hr. cbn [boot log responses List.filter length] in Hr.
    fold (responses (log (snd (stage_and_upload cfg env video file contentType mediatype
                                 (boot db0 f s30))))) in Hr.
    rewrite Hr. destruct (snd (rand_Read env 32)); split; try lia; discriminate.
Qed.

End Responses.

Section UploadEvents.
Import GoLib Upload Reading.

Lemma getVideoAspectRatio_label (P : Aspect.Probe) (path label : string) :
  Aspect.getVideoAspectRatio P path = (label, None) -> is_label label.
Proof.
  unfold Aspect.getVideoAspectRatio, is_label.
  destruct (Aspect.ffprobe P path) as [out|]; [|discriminate].
  destruct (Aspect.json_Unmarshal P out) as [parsed|]; [|discriminate].
  destruct (Aspect.Streams parsed) as [|s0 rest]; [discriminate|].
  destruct (_ || _); [discriminate|].
  intros [= <-]. unfold Aspect.classify, Aspect.classify_ratio.
  destruct (Aspect.approx _ Aspect.sixteen_ninths); [tauto|].
  destruct (Aspect.approx _ Aspect.nine_sixteenths); tauto.
Qed.

Lemma no_update_in (l : list Event) (v : Video) (ok : bool) :
  existsb is_update l = false -> ~ In (UpdateVideo v ok) l.
Proof.
  intros Hl Hin. assert (existsb is_update l = true); [|congruence].
  apply existsb_exists. eauto.
Qed.

Lemma no_json_in (l : list Event) (code : Z) (payload : Video) :
  existsb is_json l = false -> ~ In (RespondJSON code payload) l.
Proof.
  intros Hl Hin. assert (existsb is_json l = true); [|congruence].
  apply existsb_exists. eauto.
Qed.

Ltac absurd_log :=
  exfalso;
  match goal with
  | Hn : forall v ok, ~ In (UpdateVideo v ok) _, H : In (UpdateVideo _ _) _ |- _ => exact (Hn _ _ H)
  | Hn : forall c p, ~ In (RespondJSON c p) _, H : In (RespondJSON _ _) _ |- _ => exact (Hn _ _ H)
  end.

Ltac show_in :=
  cbn [log emit with_s3 with_db with_fs respondWithError respondWithJSON];
  rewrite !in_app_iff; cbn [In]; tauto.

Ltac log_cases :=
  cbn [log emit with_s3 with_db with_fs respondWithError respondWithJSON];
  rewrite ?in_app_iff; cbn [In];
  intros Hin; decompose [or] Hin; clear Hin; try discriminate; try tauto.

Lemma upload_processed_facts (cfg : apiConfig) (env : Env) (video : Video)
    (mediatype fileName processedPath : string) (body : list byte) (σ : St) :
  existsb is_update (log σ) = false -> existsb is_json (log σ) = false ->
  fs σ !! processedPath = Some body ->
  let σ' := upload_processed cfg env video mediatype fileName processedPath σ in
  fs σ' = fs σ
  /\ (forall v ok, In (UpdateVideo v ok) (log σ') ->
        update_facts cfg video mediatype fileName body σ' v)
  /\ (forall code payload, In (RespondJSON code payload) (log σ') ->
        json_facts env σ' code payload).
Proof.
  intros Hu Hj Hbody σ'. subst σ'. unfold upload_processed. rewrite Hbody.
  pose proof (fun v ok => no_update_in (log σ) v ok Hu) as Hnu.
  pose proof (fun c p => no_json_in (log σ) c p Hj) as Hnj.
  destruct (os_Open_failure env).
  { split; [reflexivity|]. split; intros ? ?; log_cases; absurd_log. }
  unfold getVideoAspectRatio.
  destruct (Aspect.getVideoAspectRatio _ processedPath) as [orientation [err|]] eqn:Hasp.
  { split; [reflexivity|]. split; intros ? ?; log_cases; absurd_log. }
  apply getVideoAspectRatio_label in Hasp.
  set (objKey := orientation ++ "/" ++ fileName).
  destruct (s3_PutObject env (s3Bucket cfg) objKey).
  { split; [reflexivity|]. split; intros ? ?; log_cases; absurd_log. }
  unfold UpdateVideo_db.
  set (video' := set_VideoURL video _).
  destruct (db_UpdateVideo env video').
  { split; [reflexivity|]. split; intros ? ?; log_cases; try (absurd_log).
    match goal with H : UpdateVideo _ _ = UpdateVideo _ _ |- _ => injection H as <- <- end.
    exists orientation. split; [exact Hasp|]. split; [reflexivity|]. split.
    - show_in.
    - cbn [s3 emit with_s3 with_db]. apply lookup_insert_eq. }
  unfold dbVideoToSignedVideo, generatePresignedURL.
  cbn [VideoURL video' set_VideoURL].
  set (ref := s3Bucket cfg ++ "," ++ objKey).
  assert (Hupd : forall σ2 : St,
    s3 σ2 = <[(s3Bucket cfg, objKey) := {| ContentType := mediatype; Body := body |}]> (s3 σ) ->
    In (PutObject (s3Bucket cfg) objKey true) (log σ2) ->
    update_facts cfg video mediatype fileName body σ2 video').
  { intros σ2 Hs3 Hput. exists orientation. split; [exact Hasp|]. split; [reflexivity|].
    split; [exact Hput|]. rewrite Hs3. apply lookup_insert_eq. }
  destruct (Split ref ",") as [|b [|k [|]]] eqn:Hsplit.
  1,2,4: split; [reflexivity|]; split; intros ? ?; log_cases; try (absurd_log);
    match goal with H : UpdateVideo _ _ = UpdateVideo _ _ |- _ => injection H as <- <- end;
    apply Hupd; [reflexivity|];
    show_in.
  destruct (PresignGetObject env b k fifteen_minutes) as [url|perr] eqn:Hpre.
  - split; [reflexivity|]. split; intros ? ?; log_cases; try (absurd_log).
    + match goal with H : UpdateVideo _ _ = UpdateVideo _ _ |- _ => injection H as <- <- end.
      apply Hupd; [reflexivity|].
      show_in.
    + match goal with H : RespondJSON _ _ = RespondJSON _ _ |- _ => injection H as <- <- end.
      split; [reflexivity|]. exists video', ref, b, k, url.
      split; [show_in|].
      split; [cbn [db emit with_s3 with_db respondWithJSON]; apply lookup_insert_eq|].
      auto.
  - split; [reflexivity|]. split; intros ? ?; log_cases; try (absurd_log).
    match goal with H : UpdateVideo _ _ = UpdateVideo _ _ |- _ => injection H as <- <- end.
    apply Hupd; [reflexivity|].
    show_in.
Qed.

Lemma existsb_log_emit (f : Event -> bool) (e : Event) (σ : St) :
  existsb f (log (emit e σ)) = existsb f (log σ) || f e.
Proof. cbn [emit log]. rewrite existsb_app. cbn [existsb]. now rewrite orb_false_r. Qed.

Lemma update_facts_os_Remove (cfg : apiConfig) (video : Video) (mediatype fileName : string)
    (body : list byte) (name : string) (σ : St) (v : Video) :
  update_facts cfg video mediatype fileName body σ v ->
  update_facts cfg video mediatype fileName body (os_Remove name σ) v.
Proof.
  intros (o & Hl & Hv & Hput & Hs3). exists o. repeat split; try assumption.
  unfold os_Remove. cbn [log emit with_fs]. rewrite in_app_iff. now left.
Qed.

Lemma json_facts_os_Remove (env : Env) (name : string) (σ : St) (code : Z) (payload : Video) :
  json_facts env σ code payload -> json_facts env (os_Remove name σ) code payload.
Proof.
  intros (Hc & v & ref & b & k & url & Hin & Hrest). split; [exact Hc|].
  exists v, ref, b, k, url. split; [|exact Hrest].
  unfold os_Remove. cbn [log emit with_fs]. rewrite in_app_iff. now left.
Qed.

Lemma in_log_os_Remove (e : Event) (name : string) (σ : St) :
  In e (log (os_Remove name σ)) -> is_update e || is_json e = true -> In e (log σ).
Proof.
  unfold os_Remove. cbn [log emit with_fs]. rewrite in_app_iff. cbn [In].
  intros [H|[<-|[]]] He; [exact H | discriminate He].
Qed.

Lemma stage_and_upload_facts (cfg : apiConfig) (env : Env) (video : Video)
    (file : list byte) (contentType mediatype : string) (σ : St) :
  existsb is_update (log σ) = false -> existsb is_json (log σ) = false ->
  let σ' := snd (stage_and_upload cfg env video file contentType mediatype σ) in
  (forall v ok, In (UpdateVideo v ok) (log σ') ->
     exists extension name output,
       Split contentType "/" !! 1%nat = Some extension
       /\ String.length name = 43%nat /\ all_url_safe name = true
       /\ ffmpeg env (Some file) = Exit0 output
       /\ update_facts cfg video mediatype (name ++ "." ++ extension) output σ' v)
  /\ (forall code payload, In (RespondJSON code payload) (log σ') ->
        json_facts env σ' code payload).
Proof.
  intros Hu Hj σ'. subst σ'. unfold stage_and_upload.
  pose proof (fun v ok => no_update_in (log σ) v ok Hu) as Hnu.
  pose proof (fun c p => no_json_in (log σ) c p Hj) as Hnj.
  destruct (Split contentType "/" !! 1%nat) as [fileExtension|]; cbn zeta;
    [|split; intros ? ? Hin; exfalso; [exact (Hnu _ _ Hin) | exact (Hnj _ _ Hin)]].
  destruct (rand_Read env 32) as [random rerr].
  destruct (random_name_shape random) as [Hlen Hsafe].
  set (name := EncodeToString (read_into (make 32) random)) in *.
  match goal with |- context [respondWithError _ "Error creating file" ?s] =>
    assert (Hu1 : existsb is_update (log s) = false)
      by (destruct rerr; [unfold respondWithError; rewrite existsb_log_emit, Hu|]; auto);
    assert (Hj1 : existsb is_json (log s) = false)
      by (destruct rerr; [unfold respondWithError; rewrite existsb_log_emit, Hj|]; auto);
    generalize dependent s end.
  intros σ1 Hu1 Hj1. clear Hnu Hnj Hu Hj.
  pose proof (fun v ok => no_update_in (log σ1) v ok Hu1) as Hnu.
  pose proof (fun c p => no_json_in (log σ1) c p Hj1) as Hnj.
  destruct (os_CreateTemp env "" "tubely-upload.mp4") as [originalFile|]; cbn [snd].
  2:{ split; intros ? ?; log_cases; absurd_log. }
  destruct (io_Copy env file) as [|cerr written]; cbn [snd].
  2:{ unfold os_Remove, write_file. split; intros ? ?; log_cases; absurd_log. }
  unfold processVideoForFastStart.
  cbn [write_file fs with_fs emit]. rewrite lookup_insert_eq.
  destruct (ffmpeg env (Some file)) as [output|e leftover] eqn:Hff; cbn [snd fst].
  2:{ unfold os_Remove, write_file.
      destruct leftover; split; intros ? ?; log_cases; absurd_log. }
  match goal with |- context [upload_processed cfg env video mediatype ?fn ?pp ?s] =>
    assert (H3u : existsb is_update (log s) = false)
      by (cbn [write_file log with_fs emit]; rewrite ?existsb_app; cbn [existsb]; rewrite Hu1; reflexivity);
    assert (H3j : existsb is_json (log s) = false)
      by (cbn [write_file log with_fs emit]; rewrite ?existsb_app; cbn [existsb]; rewrite Hj1; reflexivity);
    assert (H3b : fs s !! pp = Some output)
      by (cbn [write_file fs with_fs emit]; apply lookup_insert_eq);
    destruct (upload_processed_facts cfg env video mediatype fn pp output s H3u H3j H3b)
      as (_ & HU & HJ);
    generalize dependent (upload_processed cfg env video mediatype fn pp s) end.
  intros σ4 HU HJ. split.
  - intros v ok Hin.
    do 2 (apply in_log_os_Remove in Hin; [|reflexivity]).
    exists fileExtension, name, output. repeat split; try assumption.
    do 2 apply update_facts_os_Remove. now apply (HU v ok).
  - intros code payload Hin.
    do 2 (apply in_log_os_Remove in Hin; [|reflexivity]).
    do 2 apply json_facts_os_Remove. now apply HJ.
Qed.

Lemma upload_processed_fs (cfg : apiConfig) (env : Env) (video : Video)
    (mediatype fileName processedPath : string) (σ : St) :
  fs (upload_processed cfg env video mediatype fileName processedPath σ) = fs σ.
Proof.
  unfold upload_processed.
  destruct (os_Open_failure env); [reflexivity|].
  destruct (fs σ !! processedPath) as [processedFile|]; [|reflexivity].
  unfold getVideoAspectRatio.
  destruct (Aspect.getVideoAspectRatio _ processedPath) as [orientation [err|]];
    [reflexivity|].
  destruct (s3_PutObject env (s3Bucket cfg) _); [reflexivity|].
  unfold UpdateVideo_db. destruct (db_UpdateVideo env _); [reflexivity|].
  match goal with |- context [dbVideoToSignedVideo env ?v ?s] =>
    pose proof (dbVideoToSignedVideo_state env v s) as Hq;
    destruct (dbVideoToSignedVideo env v s) as [[signed serr] σ2] end.
  cbn [snd] in Hq.
  destruct Hq as [->|(b & k & ->)]; destruct serr; reflexivity.
Qed.

Lemma upload_processed_log (cfg : apiConfig) (env : Env) (video : Video)
    (mediatype fileName processedPath : string) (σ : St) (e : Event) :
  In e (log (upload_processed cfg env video mediatype fileName processedPath σ)) ->
  In e (log σ) \/ makes_file e = false.
Proof.
  unfold upload_processed.
  destruct (os_Open_failure env); [log_cases; subst; auto|].
  destruct (fs σ !! processedPath) as [processedFile|]; [|log_cases; subst; auto].
  unfold getVideoAspectRatio.
  destruct (Aspect.getVideoAspectRatio _ processedPath) as [orientation [err|]];
    [log_cases; subst; auto|].
  destruct (s3_PutObject env (s3Bucket cfg) _); [log_cases; subst; auto|].
  unfold UpdateVideo_db. destruct (db_UpdateVideo env _); [log_cases; subst; auto|].
  match goal with |- context [dbVideoToSignedVideo env ?v ?s] =>
    pose proof (dbVideoToSignedVideo_state env v s) as Hq;
    destruct (dbVideoToSignedVideo env v s) as [[signed serr] σ2] end.
  cbn [snd] in Hq.
  destruct Hq as [->|(b & k & ->)]; destruct serr; log_cases; subst; auto.
Qed.

Ltac split_log H :=
  cbn [log emit with_s3 with_db with_fs write_file respondWithError respondWithJSON] in H;
  rewrite ?in_app_iff in H; cbn [In] in H;
  repeat (destruct H as [H|H]); try discriminate H; try contradiction.

Ltac absurd_file :=
  exfalso;
  match goal with
  | Hn : forall n, ~ In (CreateTemp n) ?l, H : In (CreateTemp _) ?l |- _ => exact (Hn _ H)
  | Hn : forall i o, ~ In (RunFfmpeg i o true) ?l, H : In (RunFfmpeg _ _ true) ?l |- _ =>
    exact (Hn _ _ H)
  end.

Lemma stage_and_upload_removed (cfg : apiConfig) (env : Env) (video : Video)
    (file : list byte) (contentType mediatype : string) (σ : St) :
  (forall e, In e (log σ) -> makes_file e = false) ->
  let σ' := snd (stage_and_upload cfg env video file contentType mediatype σ) in
  (forall name, In (CreateTemp name) (log σ') -> fs σ' !! name = None)
  /\ (forall input output, In (RunFfmpeg input output true) (log σ') ->
        fs σ' !! output = None).
Proof.
  intros Hquiet σ'. subst σ'. unfold stage_and_upload.
  assert (Hno : forall (l : list Event),
            (forall e, In e l -> makes_file e = false) ->
            (forall name, ~ In (CreateTemp name) l)
            /\ (forall input output, ~ In (RunFfmpeg input output true) l)).
  { intros l Hl. split; intros * Hin; apply Hl in Hin; discriminate Hin. }
  destruct (Split contentType "/" !! 1%nat) as [fileExtension|]; cbn zeta.
  2:{ destruct (Hno _ Hquiet) as [Hc Hr]. cbn [snd].
      split; intros * Hin; exfalso; [exact (Hc _ Hin) | exact (Hr _ _ Hin)]. }
  destruct (rand_Read env 32) as [random rerr].
  match goal with |- context [respondWithError _ "Error creating file" ?s] =>
    assert (Hquiet1 : forall e, In e (log s) -> makes_file e = false)
      by (destruct rerr; [|exact Hquiet]; intros ev; log_cases; subst; auto);
    generalize dependent s end.
  intros σ1 Hquiet1. clear Hquiet.
  destruct (Hno _ Hquiet1) as [Hc Hr].
  destruct (os_CreateTemp env "" "tubely-upload.mp4") as [originalFile|]; cbn [snd].
  2:{ split; intros * Hin; split_log Hin; absurd_file. }
  destruct (io_Copy env file) as [|cerr written]; cbn [snd].
  2:{ unfold os_Remove. split; intros * Hin; split_log Hin; try absurd_file.
      injection Hin as <-.
      cbn [fs with_fs emit write_file respondWithError]. apply lookup_delete_eq. }
  unfold processVideoForFastStart.
  cbn [write_file fs with_fs emit]. rewrite lookup_insert_eq.
  destruct (ffmpeg env (Some file)) as [output|e leftover]; cbn [snd fst].
  2:{ unfold os_Remove.
      destruct leftover; split; intros * Hin; split_log Hin; try absurd_file;
        injection Hin as <-;
        cbn [fs with_fs emit write_file respondWithError]; apply lookup_delete_eq. }
  match goal with |- context [upload_processed cfg env video mediatype ?fn ?pp ?s] =>
    pose proof (upload_processed_log cfg env video mediatype fn pp s) as Hlog;
    generalize dependent (upload_processed cfg env video mediatype fn pp s) end.
  intros σ4 Hlog.
  unfold os_Remove. cbn [fs log with_fs emit].
  split; intros * Hin.
  - rewrite !in_app_iff in Hin. cbn [In] in Hin.
    destruct Hin as [[Hin|[Hin|[]]]|[Hin|[]]]; try discriminate Hin.
    destruct (Hlog _ Hin) as [Hin'|Hin']; [|discriminate Hin'].
    clear Hin. split_log Hin'; [absurd_file|]. injection Hin' as <-.
    apply lookup_delete_eq.
  - rewrite !in_app_iff in Hin. cbn [In] in Hin.
    destruct Hin as [[Hin|[Hin|[]]]|[Hin|[]]]; try discriminate Hin.
    destruct (Hlog _ Hin) as [Hin'|Hin']; [|discriminate Hin'].
    clear Hin. split_log Hin'; [absurd_file|]. injection Hin' as <- <-.
    rewrite lookup_delete. case_decide; [reflexivity | apply lookup_delete_eq].
Qed.

(** X6.  Whenever the upload handler asks the record store for an update,
    the record it passes is the one it read, with [VideoURL] set to
    [bucket,orientation/name.extension]: [orientation] one of the three
    labels, [name] 43 characters of the URL alphabet, [extension] the second
    slash-separated piece of the part's Content-Type header.  By then the
    object has been written under that key with content type [video/mp4],
    and its body is what the remux tool made of the uploaded bytes. *)
Theorem persisted_reference_shape (cfg : apiConfig) (env : Env) (r : Request)
    (db0 : gmap UUID Video) (fs0 : gmap string (list byte))
    (s30 : gmap (string * string) S3Object) (v : Video) (ok : bool) :
  let σ' := snd (handlerUploadVideo cfg env r (boot db0 fs0 s30)) in
  In (UpdateVideo v ok) (log σ') ->
  exists videoID video file contentType extension name orientation output,
    uuid_Parse env (PathValue_videoID r) = inl videoID
    /\ db0 !! videoID = Some video
    /\ FormFile_video r = inl (file, contentType)
    /\ Split contentType "/" !! 1%nat = Some extension
    /\ String.length name = 43%nat /\ all_url_safe name = true
    /\ is_label orientation
    /\ ffmpeg env (Some file) = Exit0 output
    /\ v = set_VideoURL video
             (s3Bucket cfg ++ "," ++ orientation ++ "/" ++ name ++ "." ++ extension)
    /\ In (PutObject (s3Bucket cfg) (orientation ++ "/" ++ name ++ "." ++ extension) true)
          (log σ')
    /\ s3 σ' !! (s3Bucket cfg, orientation ++ "/" ++ name ++ "." ++ extension)
       = Some {| ContentType := "video/mp4"; Body := output |}.
Proof.
  intros σ'. subst σ'. unfold handlerUploadVideo, GetVideo.
  assert (Hrej : forall code msg f,
            In (UpdateVideo v ok) (log (respondWithError code msg (boot db0 f s30))) -> False).
  { intros code msg f. cbn. intros [H|[]]. discriminate H. }
  destruct (uuid_Parse env _) as [videoID|] eqn:Hid; cbn [snd];
    [|intros H; destruct (Hrej _ _ _ H)].
  destruct (GetBearerToken env _) as [token|]; cbn [snd]; [|intros H; destruct (Hrej _ _ _ H)].
  destruct (ValidateJWT env token _) as [userID|]; cbn [snd];
    [|intros H; destruct (Hrej _ _ _ H)].
  destruct (db_read_failure env); cbn [snd]; [intros H; destruct (Hrej _ _ _ H)|].
  cbn [boot db].
  destruct (db0 !! videoID) as [video|] eqn:Hget; cbn [snd];
    [|intros H; destruct (Hrej _ _ _ H)].
  destruct (negb _); cbn [snd]; [intros H; destruct (Hrej _ _ _ H)|].
  fold (boot db0 fs0 s30).
  destruct (FormFile_state env r (boot db0 fs0 s30)) as [f Hf].
  pose proof (FormFile_part env r (boot db0 fs0 s30)) as Hpart.
  destruct (FormFile env r (boot db0 fs0 s30)) as [part σ1].
  cbn [fst snd] in Hf, Hpart. subst σ1.
  change (with_fs f (boot db0 fs0 s30)) with (boot db0 f s30).
  destruct part as [[file contentType]|]; cbn [snd];
    [|intros H; destruct (Hrej _ _ _ H)].
  pose proof (Hpart file contentType eq_refl) as Hform.
  destruct (ParseMediaType env contentType) as [mediatype|]; cbn [snd];
    [|intros H; destruct (Hrej _ _ _ H)].
  destruct (String.eqb_spec mediatype "video/mp4") as [->|]; cbn [negb snd];
    [|intros H; destruct (Hrej _ _ _ H)].
  intros Hin.
  destruct (stage_and_upload_facts cfg env video file contentType "video/mp4"
              (boot db0 f s30) eq_refl eq_refl) as [HU _].
  destruct (HU v ok Hin) as (ext & name & output & Hext & Hlen & Hsafe & Hff & Hfacts).
  destruct Hfacts as (o & Hlabel & Hv & Hput & Hs3).
  exists videoID, video, file, contentType, ext, name, o, output.
  repeat split; assumption.
Qed.

(** X7.  A JSON response of the upload handler has status 200 and comes
    only after a successful record update: the record store then holds the
    updated record, and the payload is that record with [VideoURL] replaced
    by the URL presigned for the two comma-separated pieces of the stored
    reference. *)
Theorem ok_response_means_stored (cfg : apiConfig) (env : Env) (r : Request)
    (db0 : gmap UUID Video) (fs0 : gmap string (list byte))
    (s30 : gmap (string * string) S3Object) (code : Z) (payload : Video) :
  let σ' := snd (handlerUploadVideo cfg env r (boot db0 fs0 s30)) in
  In (RespondJSON code payload) (log σ') ->
  code = 200
  /\ exists v ref bucket key url,
       In (UpdateVideo v true) (log σ')
       /\ db σ' !! ID v = Some v
       /\ VideoURL v = Some ref
       /\ Split ref "," = [bucket; key]
       /\ PresignGetObject env bucket key fifteen_minutes = inl url
       /\ payload = set_VideoURL v url.
Proof.
  intros σ'. subst σ'. unfold handlerUploadVideo.
  assert (Hrej : forall code' msg f,
            In (RespondJSON code payload)
               (log (respondWithError code' msg (boot db0 f s30))) -> False).
  { intros code' msg f. cbn. intros [H|[]]. discriminate H. }
  destruct (uuid_Parse env _) as [videoID|]; cbn [snd]; [|intros H; destruct (Hrej _ _ _ H)].
  destruct (GetBearerToken env _) as [token|]; cbn [snd]; [|intros H; destruct (Hrej _ _ _ H)].
  destruct (ValidateJWT env token _) as [userID|]; cbn [snd];
    [|intros H; destruct (Hrej _ _ _ H)].
  destruct (GetVideo env _ videoID) as [video|[|]]; cbn [snd];
    [|intros H; destruct (Hrej _ _ _ H)..].
  destruct (negb _); cbn [snd]; [intros H; destruct (Hrej _ _ _ H)|].
  destruct (FormFile_state env r (boot db0 fs0 s30)) as [f Hf].
  destruct (FormFile env r (boot db0 fs0 s30)) as [part σ1]. cbn [snd] in Hf. subst σ1.
  change (with_fs f (boot db0 fs0 s30)) with (boot db0 f s30).
  destruct part as [[file contentType]|]; cbn [snd];
    [|intros H; destruct (Hrej _ _ _ H)].
  destruct (ParseMediaType env contentType) as [mediatype|]; cbn [snd];
    [|intros H; destruct (Hrej _ _ _ H)].
  destruct (negb _); cbn [snd]; [intros H; destruct (Hrej _ _ _ H)|].
  intros Hin.
  destruct (stage_and_upload_facts cfg env video file contentType mediatype
              (boot db0 f s30) eq_refl eq_refl) as [_ HJ].
  exact (HJ code payload Hin).
Qed.

(** X8.  The staging file the handler created is gone when the handler
    ends, on every path; and so is the output of a remux that succeeded. *)
Theorem temporary_files_are_removed (cfg : apiConfig) (env : Env) (r : Request)
    (db0 : gmap UUID Video) (fs0 : gmap string (list byte))
    (s30 : gmap (string * string) S3Object) :
  let σ' := snd (handlerUploadVideo cfg env r (boot db0 fs0 s30)) in
  (forall name, In (CreateTemp name) (log σ') -> fs σ' !! name = None)
  /\ (forall input output, In (RunFfmpeg input output true) (log σ') ->
        fs σ' !! output = None).
Proof.
  intros σ'. subst σ'. unfold handlerUploadVideo.
  assert (Hrej : forall code msg f,
    let σ' := respondWithError code msg (boot db0 f s30) in
    (forall name, In (CreateTemp name) (log σ') -> fs σ' !! name = None)
    /\ (forall input output, In (RunFfmpeg input output true) (log σ') ->
          fs σ' !! output = None))
    by (intros code msg f; cbn; split; intros * [H|[]]; discriminate H).
  destruct (uuid_Parse env _) as [videoID|]; cbn [snd]; [|apply Hrej].
  destruct (GetBearerToken env _) as [token|]; cbn [snd]; [|apply Hrej].
  destruct (ValidateJWT env token _) as [userID|]; cbn [snd]; [|apply Hrej].
  destruct (GetVideo env _ videoID) as [video|[|]]; cbn [snd]; [|apply Hrej..].
  destruct (negb _); cbn [snd]; [apply Hrej|].
  destruct (FormFile_state env r (boot db0 fs0 s30)) as [f Hf].
  destruct (FormFile env r (boot db0 fs0 s30)) as [part σ1]. cbn [snd] in Hf. subst σ1.
  change (with_fs f (boot db0 fs0 s30)) with (boot db0 f s30).
  destruct part as [[file contentType]|]; cbn [snd]; [|apply Hrej].
  destruct (ParseMediaType env contentType) as [mediatype|]; cbn [snd]; [|apply Hrej].
  destruct (negb _); cbn [snd]; [apply Hrej|].
  apply stage_and_upload_removed. intros e [].
Qed.

End UploadEvents.

(* ===================================================================== *)
(** ** Properties of the thumbnail handlers *)
(* ===================================================================== *)

Section ThumbnailHandlers.
Import GoLib Thumbnail Reading.

Ltac absurd_thumb :=
  exfalso;
  match goal with
  | Hn : forall v ok, ~ In (UpdateVideo v ok) ?l, H : In (UpdateVideo _ _) ?l |- _ =>
    exact (Hn _ _ H)
  | Hn : forall p, ~ In (CreateFile p) ?l, H : In (CreateFile _) ?l |- _ => exact (Hn _ H)
  | Hn : forall p b, ~ In (CopyTo p b) ?l, H : In (CopyTo _ _) ?l |- _ => exact (Hn _ _ H)
  end.

Lemma ParseMultipartForm_state (env : Env) (r : Request) (limit : Z) (σ : St) :
  exists f, snd (ParseMultipartForm env r limit σ) = with_fs f σ.
Proof.
  unfold ParseMultipartForm. destruct σ as [d f t l].
  destruct (FormFile_thumbnail r) as [[file contentType]|]; [|now exists f].
  destruct (limit <? _); [|now exists f].
  destruct (os_CreateTemp env "" "multipart-") as [name|]; [|now exists f].
  now exists (<[name := file]> f).
Qed.

Lemma ParseMultipartForm_part (env : Env) (r : Request) (limit : Z) (σ : St)
    (file : list byte) (contentType : string) :
  fst (ParseMultipartForm env r limit σ) = inl (file, contentType) ->
  FormFile_thumbnail r = inl (file, contentType).
Proof.
  unfold ParseMultipartForm.
  destruct (FormFile_thumbnail r) as [[file' contentType']|]; [|discriminate].
  destruct (limit <? _); [|exact (fun H => H)].
  destruct (os_CreateTemp env "" "multipart-"); [exact (fun H => H) | discriminate].
Qed.

Lemma ParseMultipartForm_fs (env : Env) (r : Request) (limit : Z) (σ : St) :
  fs (snd (ParseMultipartForm env r limit σ)) = fs σ
  \/ exists file contentType name,
       FormFile_thumbnail r = inl (file, contentType)
       /\ limit < Z.of_nat (length file)
       /\ os_CreateTemp env "" "multipart-" = inl name
       /\ fs (snd (ParseMultipartForm env r limit σ)) = <[name := file]> (fs σ).
Proof.
  unfold ParseMultipartForm.
  destruct (FormFile_thumbnail r) as [[file contentType]|]; [|now left].
  destruct (Z.ltb_spec limit (Z.of_nat (length file))); [|now left].
  destruct (os_CreateTemp env "" "multipart-") as [name|]; [|now left].
  right. now exists file, contentType, name.
Qed.

(** X9.  The thumbnail handler answers a caller who is not the owner of
    the record, and a part whose media type is neither [image/jpeg] nor
    [image/png], with one error response; it creates and writes no file under
    the assets root and leaves the record store unchanged.  The file system
    is unchanged when the part has at most [maxMemory] bytes; a longer part
    has been written by [r.ParseMultipartForm] to its [multipart-] file
    before the owner and the media type are looked at, and that file is the
    only change. *)
Theorem thumbnail_rejected_before_file (cfg : apiConfig) (env : Env) (r : Request)
    (db0 : gmap UUID Video) (fs0 : gmap string (list byte)) (tn0 : gmap UUID thumbnail) :
  caller_is_not_owner cfg env r db0 \/ media_type_is_not_image env r ->
  let σ' := snd (handlerUploadThumbnail cfg env r (boot db0 fs0 tn0)) in
  (exists code msg, 400 <= code
     /\ List.filter is_response (log σ') = [RespondError code msg])
  /\ existsb is_file_event (log σ') = false
  /\ db σ' = db0
  /\ (forall file contentType,
        FormFile_thumbnail r = inl (file, contentType) ->
        Z.of_nat (length file) <= maxMemory -> fs σ' = fs0)
  /\ (fs σ' = fs0
      \/ exists file contentType name,
           FormFile_thumbnail r = inl (file, contentType)
           /\ maxMemory < Z.of_nat (length file)
           /\ os_CreateTemp env "" "multipart-" = inl name
           /\ fs σ' = <[name := file]> fs0).
Proof.
  intros Hrej σ'.
  assert (Hcore :
    (exists code msg, 400 <= code
       /\ List.filter is_response (log σ') = [RespondError code msg])
    /\ existsb is_file_event (log σ') = false
    /\ db σ' = db0
    /\ (fs σ' = fs0
        \/ exists file contentType name,
             FormFile_thumbnail r = inl (file, contentType)
             /\ maxMemory < Z.of_nat (length file)
             /\ os_CreateTemp env "" "multipart-" = inl name
             /\ fs σ' = <[name := file]> fs0)).
  { subst σ'. unfold handlerUploadThumbnail, GetVideo.
    assert (Hdone : forall code msg (evs : list Event) f, 400 <= code ->
      List.filter is_response evs = [] -> existsb is_file_event evs = false ->
      (f = fs0
       \/ exists file contentType name,
            FormFile_thumbnail r = inl (file, contentType)
            /\ maxMemory < Z.of_nat (length file)
            /\ os_CreateTemp env "" "multipart-" = inl name
            /\ f = <[name := file]> fs0) ->
      let σ' := respondWithError code msg
                  {| db := db0; fs := f; videoThumbnails := tn0; log := evs |} in
      (exists code msg, 400 <= code
         /\ List.filter is_response (log σ') = [RespondError code msg])
      /\ existsb is_file_event (log σ') = false
      /\ db σ' = db0
      /\ (fs σ' = fs0
          \/ exists file contentType name,
               FormFile_thumbnail r = inl (file, contentType)
               /\ maxMemory < Z.of_nat (length file)
               /\ os_CreateTemp env "" "multipart-" = inl name
               /\ fs σ' = <[name := file]> fs0)).
    { intros code msg evs f Hc Hr Hf Hfs. cbn.
      rewrite List.filter_app, existsb_app, Hr, Hf. cbn. repeat split; eauto. }
    destruct (uuid_Parse env _) as [videoID|] eqn:Hid; cbn [snd];
      [|now apply (Hdone _ _ []); auto].
    destruct (GetBearerToken env _) as [token|] eqn:Htok; cbn [snd];
      [|now apply (Hdone _ _ []); auto].
    destruct (ValidateJWT env token _) as [userID|] eqn:Hjwt; cbn [snd];
      [|now apply (Hdone _ _ []); auto].
    destruct (ParseMultipartForm_state env r maxMemory
                (emit (Println videoID userID) (boot db0 fs0 tn0))) as [f Hf].
    pose proof (ParseMultipartForm_fs env r maxMemory
                  (emit (Println videoID userID) (boot db0 fs0 tn0))) as Hfs.
    pose proof (ParseMultipartForm_part env r maxMemory
                  (emit (Println videoID userID) (boot db0 fs0 tn0))) as Hpart.
    destruct (ParseMultipartForm env r maxMemory _) as [part σ1].
    cbn [fst snd] in Hf, Hfs, Hpart. subst σ1.
    cbn [with_fs boot emit fs db videoThumbnails log app] in Hfs |- *.
    destruct part as [[file contentType]|]; cbn [snd];
      [|now apply (Hdone _ _ [Println videoID userID])].
    pose proof (Hpart file contentType eq_refl) as Hform.
    destruct (db_read_failure env); cbn [snd];
      [now apply (Hdone _ _ [Println videoID userID])|].
    destruct (db0 !! videoID) as [video|] eqn:Hget; cbn [snd];
      [|now apply (Hdone _ _ [Println videoID userID])].
    destruct (N.eqb_spec (UserID video) userID) as [Hown|Hown]; cbn [negb snd];
      [|now apply (Hdone _ _ [Println videoID userID])].
    destruct (ParseMediaType env contentType) as [mediatype|] eqn:Hmedia; cbn [snd];
      [|now apply (Hdone _ _ [Println videoID userID])].
    destruct (String.eqb_spec mediatype "image/jpeg") as [Hj|Hj];
      destruct (String.eqb_spec mediatype "image/png") as [Hp|Hp]; cbn [orb negb snd];
      try (now apply (Hdone _ _ [Println videoID userID]));
      exfalso;
      (destruct Hrej as [(id' & tok' & uid' & v' & H1 & H2 & H3 & H4 & H5)|
                         (file' & ct' & H1 & H2 & H3)];
       [congruence | rewrite Hform in H1; injection H1 as <- <-; congruence]). }
  destruct Hcore as (Hresp & Hfile & Hdb & Hfs).
  split; [exact Hresp|]. split; [exact Hfile|]. split; [exact Hdb|]. split; [|exact Hfs].
  intros file contentType Hform Hsize.
  destruct Hfs as [Hfs|(file' & ct' & name & Hform' & Hsize' & _)]; [exact Hfs|].
  rewrite Hform in Hform'. injection Hform' as <- <-. lia.
Qed.

Lemma save_to_assets_facts (cfg : apiConfig) (env : Env) (video : Video)
    (file : list byte) (contentType : string) (σ : St) :
  (forall e, In e (log σ) -> is_file_event e = false /\ forall v ok, e <> UpdateVideo v ok) ->
  let σ' := snd (save_to_assets cfg env video file contentType σ) in
  (forall v ok, In (UpdateVideo v ok) (log σ') ->
     exists extension name,
       Split contentType "/" !! 1%nat = Some extension
       /\ String.length name = 43%nat /\ all_url_safe name = true
       /\ v = set_ThumbnailURL video
                ("http://localhost:" ++ port cfg ++ "/assets/" ++ name ++ "." ++ extension)
       /\ fs σ' !! filepath_Join env (assetsRoot cfg) (name ++ "." ++ extension) = Some file
       /\ (ok = true -> db σ' !! ID v = Some v)
       /\ (ok = false -> db σ' = db σ))
  /\ (forall path, In (CreateFile path) (log σ') -> is_Some (fs σ' !! path))
  /\ (forall path bytes, In (CopyTo path bytes) (log σ') -> fs σ' !! path = Some bytes).
Proof.
  intros Hquiet σ'. subst σ'. unfold save_to_assets.
  assert (Hnu : forall v ok, ~ In (UpdateVideo v ok) (log σ))
    by (intros v ok Hin; destruct (Hquiet _ Hin) as [_ H]; now apply (H v ok)).
  assert (Hnc : forall path, ~ In (CreateFile path) (log σ))
    by (intros path Hin; destruct (Hquiet _ Hin) as [H _]; discriminate H).
  assert (Hnw : forall path bytes, ~ In (CopyTo path bytes) (log σ))
    by (intros path bytes Hin; destruct (Hquiet _ Hin) as [H _]; discriminate H).
  destruct (Split contentType "/" !! 1%nat) as [fileExtension|] eqn:Hext; cbn zeta;
    [|cbn [snd]; repeat split; intros; absurd_thumb].
  destruct (rand_Read env 32) as [random rerr].
  destruct (random_name_shape random) as [Hlen Hsafe].
  set (name := EncodeToString (read_into (make 32) random)) in *.
  set (path := filepath_Join env (assetsRoot cfg) (name ++ "." ++ fileExtension)).
  match goal with |- context [respondWithError _ "Error creating file" ?s] =>
    assert (Hlog1 : forall e, In e (log s) ->
              In e (log σ) \/ e = RespondError Upload.StatusInternalServerError
                                    "Error creating random file name")
      by (intros ev; destruct rerr; cbn; rewrite ?in_app_iff; cbn; intuition (subst; auto));
    assert (Hdb1 : db s = db σ) by (destruct rerr; reflexivity);
    generalize dependent s end.
  intros σ1 Hlog1 Hdb1.
  assert (Hnu1 : forall v ok, ~ In (UpdateVideo v ok) (log σ1))
    by (intros v ok Hin; destruct (Hlog1 _ Hin) as [H|H]; [exact (Hnu _ _ H) | discriminate H]).
  assert (Hnc1 : forall p, ~ In (CreateFile p) (log σ1))
    by (intros p Hin; destruct (Hlog1 _ Hin) as [H|H]; [exact (Hnc _ H) | discriminate H]).
  assert (Hnw1 : forall p b, ~ In (CopyTo p b) (log σ1))
    by (intros p b Hin; destruct (Hlog1 _ Hin) as [H|H]; [exact (Hnw _ _ H) | discriminate H]).
  clear Hquiet Hnu Hnc Hnw Hlog1.
  destruct (os_Create env path); cbn [snd].
  { cbn. repeat split; intros *; rewrite in_app_iff; cbn;
      intros [H|[H|[]]]; try discriminate H; absurd_thumb. }
  destruct (io_Copy env file) as [|cerr written]; cbn [snd].
  2:{ cbn. repeat split; intros *; rewrite !in_app_iff; cbn;
        intros [[[H|[H|[]]]|[H|[]]]|[H|[]]]; try discriminate H; try absurd_thumb.
      - injection H as <-. rewrite lookup_insert_eq. eauto.
      - injection H as <- <-. apply lookup_insert_eq. }
  unfold UpdateVideo_db.
  set (video' := set_ThumbnailURL video _).
  destruct (db_UpdateVideo env video'); cbn [snd].
  - cbn. repeat split; intros *; rewrite !in_app_iff; cbn;
      intros [[[[H|[H|[]]]|[H|[]]]|[H|[]]]|[H|[]]]; try discriminate H;
      try absurd_thumb.
    + injection H as <- <-. exists fileExtension, name.
      split; [reflexivity|]. split; [exact Hlen|]. split; [exact Hsafe|].
      split; [reflexivity|]. split; [apply lookup_insert_eq|].
      split; [discriminate | intros _; exact Hdb1].
    + injection H as <-. rewrite lookup_insert_eq. eauto.
    + injection H as <- <-. apply lookup_insert_eq.
  - cbn. repeat split; intros *; rewrite !in_app_iff; cbn;
      intros [[[[H|[H|[]]]|[H|[]]]|[H|[]]]|[H|[]]]; try discriminate H;
      try absurd_thumb.
    + injection H as <- <-. exists fileExtension, name.
      split; [reflexivity|]. split; [exact Hlen|]. split; [exact Hsafe|].
      split; [reflexivity|]. split; [apply lookup_insert_eq|].
      split; [intros _; apply lookup_insert_eq | discriminate].
    + injection H as <-. rewrite lookup_insert_eq. eauto.
    + injection H as <- <-. apply lookup_insert_eq.
Qed.

Lemma handlerUploadThumbnail_cases (cfg : apiConfig) (env : Env) (r : Request)
    (db0 : gmap UUID Video) (fs0 : gmap string (list byte)) (tn0 : gmap UUID thumbnail) :
  let σ' := snd (handlerUploadThumbnail cfg env r (boot db0 fs0 tn0)) in
  (db σ' = db0
   /\ forall e, In e (log σ') ->
        is_file_event e = false /\ forall v ok, e <> UpdateVideo v ok)
  \/ exists videoID userID video file contentType f,
       uuid_Parse env (PathValue_videoID r) = inl videoID
       /\ db0 !! videoID = Some video
       /\ UserID video = userID
       /\ FormFile_thumbnail r = inl (file, contentType)
       /\ σ' = snd (save_to_assets cfg env video file contentType
                      (emit (Println videoID userID) (boot db0 f tn0))).
Proof.
  intros σ'. subst σ'. unfold handlerUploadThumbnail, GetVideo.
  assert (Hrej : forall code msg (evs : list Event) f,
    (forall e, In e evs -> is_file_event e = false /\ forall v ok, e <> UpdateVideo v ok) ->
    let σ' := respondWithError code msg
                {| db := db0; fs := f; videoThumbnails := tn0; log := evs |} in
    db σ' = db0
    /\ forall e, In e (log σ') ->
         is_file_event e = false /\ forall v ok, e <> UpdateVideo v ok).
  { intros code msg evs f Hevs. cbn. repeat split; try reflexivity;
      rewrite in_app_iff in H; cbn in H; destruct H as [H|[<-|[]]];
      try (now apply Hevs); try reflexivity; discriminate. }
  assert (H0 : forall e : Event, In e [] ->
             is_file_event e = false /\ forall v ok, e <> UpdateVideo v ok) by (intros e []).
  assert (H1 : forall a b (e : Event), In e [Println a b] ->
             is_file_event e = false /\ forall v ok, e <> UpdateVideo v ok).
  { intros a b e [<-|[]]. split; [reflexivity | discriminate]. }
  destruct (uuid_Parse env _) as [videoID|] eqn:Hid; cbn [snd];
    [|left; now apply (Hrej _ _ [])].
  destruct (GetBearerToken env _) as [token|]; cbn [snd]; [|left; now apply (Hrej _ _ [])].
  destruct (ValidateJWT env token _) as [userID|]; cbn [snd];
    [|left; now apply (Hrej _ _ [])].
  destruct (ParseMultipartForm_state env r maxMemory
              (emit (Println videoID userID) (boot db0 fs0 tn0))) as [f Hf].
  pose proof (ParseMultipartForm_part env r maxMemory
                (emit (Println videoID userID) (boot db0 fs0 tn0))) as Hpart.
  destruct (ParseMultipartForm env r maxMemory _) as [part σ1].
  cbn [fst snd] in Hf, Hpart. subst σ1.
  cbn [with_fs boot emit fs db videoThumbnails log app].
  destruct part as [[file contentType]|]; cbn [snd];
    [|left; apply (Hrej _ _ [Println videoID userID]); apply H1].
  pose proof (Hpart file contentType eq_refl) as Hform.
  destruct (db_read_failure env); cbn [snd];
    [left; apply (Hrej _ _ [Println videoID userID]); apply H1|].
  destruct (db0 !! videoID) as [video|] eqn:Hget; cbn [snd];
    [|left; apply (Hrej _ _ [Println videoID userID]); apply H1].
  destruct (N.eqb_spec (UserID video) userID) as [Hown|Hown]; cbn [negb snd];
    [|left; apply (Hrej _ _ [Println videoID userID]); apply H1].
  destruct (ParseMediaType env contentType) as [mediatype|]; cbn [snd];
    [|left; apply (Hrej _ _ [Println videoID userID]); apply H1].
  destruct (negb _); cbn [snd];
    [left; apply (Hrej _ _ [Println videoID userID]); apply H1|].
  right. exists videoID, userID, video, file, contentType, f. repeat split; assumption.
Qed.

(** X10.  Whenever the thumbnail handler asks the record store for an
    update, the record it passes is the one it read, with [ThumbnailURL] set
    to [http://localhost:port/assets/name.extension], and the file
    [name.extension] under the assets root holds the uploaded bytes.  A
    successful update is in the record store at the end; a failed one leaves
    the record store as it was. *)
Theorem thumbnail_reference_shape (cfg : apiConfig) (env : Env) (r : Request)
    (db0 : gmap UUID Video) (fs0 : gmap string (list byte)) (tn0 : gmap UUID thumbnail)
    (v : Video) (ok : bool) :
  let σ' := snd (handlerUploadThumbnail cfg env r (boot db0 fs0 tn0)) in
  In (UpdateVideo v ok) (log σ') ->
  exists videoID video file contentType extension name,
    uuid_Parse env (PathValue_videoID r) = inl videoID
    /\ db0 !! videoID = Some video
    /\ FormFile_thumbnail r = inl (file, contentType)
    /\ Split contentType "/" !! 1%nat = Some extension
    /\ String.length name = 43%nat /\ all_url_safe name = true
    /\ v = set_ThumbnailURL video
             ("http://localhost:" ++ port cfg ++ "/assets/" ++ name ++ "." ++ extension)
    /\ fs σ' !! filepath_Join env (assetsRoot cfg) (name ++ "." ++ extension) = Some file
    /\ (ok = true -> db σ' !! ID v = Some v)
    /\ (ok = false -> db σ' = db0).
Proof.
  intros σ' Hin.
  destruct (handlerUploadThumbnail_cases cfg env r db0 fs0 tn0)
    as [(_ & Hquiet)|(videoID & userID & video & file & ct & f & Hid & Hget & _ & Hform & Hσ)].
  { exfalso. destruct (Hquiet _ Hin) as [_ H]. now apply (H v ok). }
  fold σ' in Hσ. rewrite Hσ in Hin |- *.
  destruct (save_to_assets_facts cfg env video file ct
              (emit (Println videoID userID) (boot db0 f tn0))) as (HU & _).
  { intros e [<-|[]]. split; [reflexivity | discriminate]. }
  destruct (HU v ok Hin) as (ext & name & Hext & Hlen & Hsafe & Hv & Hfs & Hok & Hfail).
  exists videoID, video, file, ct, ext, name. repeat split; assumption.
Qed.

(** X11.  The thumbnail handler never removes what it wrote: every file
    it created exists when it ends, and holds the bytes of its last write,
    also when the request fails at the copy or at the record update. *)
Theorem thumbnail_files_stay (cfg : apiConfig) (env : Env) (r : Request)
    (db0 : gmap UUID Video) (fs0 : gmap string (list byte)) (tn0 : gmap UUID thumbnail) :
  let σ' := snd (handlerUploadThumbnail cfg env r (boot db0 fs0 tn0)) in
  (forall path, In (CreateFile path) (log σ') -> is_Some (fs σ' !! path))
  /\ (forall path bytes, In (CopyTo path bytes) (log σ') -> fs σ' !! path = Some bytes).
Proof.
  intros σ'.
  destruct (handlerUploadThumbnail_cases cfg env r db0 fs0 tn0)
    as [(_ & Hquiet)|(videoID & userID & video & file & ct & f & _ & _ & _ & _ & Hσ)].
  { fold σ' in Hquiet. split; intros * Hin; destruct (Hquiet _ Hin) as [H _]; discriminate H. }
  fold σ' in Hσ.
  destruct (save_to_assets_facts cfg env video file ct
              (emit (Println videoID userID) (boot db0 f tn0))) as (_ & HC & HW).
  { intros e [<-|[]]. split; [reflexivity | discriminate]. }
  rewrite <- Hσ in HC, HW. split; [exact HC | exact HW].
Qed.

(** X12.  When the in-memory thumbnail handler stores a thumbnail, the
    stored value is the bytes read from the part with the part's Content-Type
    header as it came (no media type is checked), and the only response is
    200 with the record carrying the new [ThumbnailURL]: the outcome of the
    record update is ignored, so after a failed update the record store is
    unchanged although the response shows the new URL. *)
Theorem inmemory_update_outcome_is_ignored (cfg : apiConfig) (env : Env) (r : Request)
    (db0 : gmap UUID Video) (fs0 : gmap string (list byte)) (tn0 : gmap UUID thumbnail)
    (videoID : UUID) (tn : thumbnail) :
  let σ' := handlerUploadThumbnail_inmemory cfg env r (boot db0 fs0 tn0) in
  In (StoreThumbnail videoID tn) (log σ') ->
  exists video file contentType,
    db0 !! videoID = Some video
    /\ FormFile_thumbnail r = inl (file, contentType)
    /\ io_ReadAll env file = inl (data tn)
    /\ mediaType tn = contentType
    /\ videoThumbnails σ' = <[videoID := tn]> tn0
    /\ let video' := set_ThumbnailURL video
                       ("http://localhost:" ++ port cfg ++ "/api/thumbnails/"
                        ++ uuid_String env videoID) in
       List.filter is_response (log σ') = [RespondJSON 200 video']
       /\ (db_UpdateVideo env video' = None -> db σ' = <[ID video := video']> db0)
       /\ (db_UpdateVideo env video' <> None -> db σ' = db0).
Proof.
  intros σ'. subst σ'. unfold handlerUploadThumbnail_inmemory, GetVideo.
  assert (Hrej : forall code msg (evs : list Event) f,
    (forall e, In e evs -> e <> StoreThumbnail videoID tn) ->
    In (StoreThumbnail videoID tn)
       (log (respondWithError code msg
               {| db := db0; fs := f; videoThumbnails := tn0; log := evs |})) -> False).
  { intros code msg evs f Hevs. cbn. rewrite in_app_iff. cbn.
    intros [H|[H|[]]]; [now apply (Hevs _ H) | discriminate H]. }
  assert (H0 : forall e : Event, In e [] -> e <> StoreThumbnail videoID tn) by (intros e []).
  assert (H1 : forall a b (e : Event), In e [Println a b] -> e <> StoreThumbnail videoID tn)
    by (intros a b e [<-|[]]; discriminate).
  destruct (uuid_Parse env _) as [vid|] eqn:Hid;
    [|intros H; destruct (Hrej _ _ [] _ H0 H)].
  destruct (GetBearerToken env _) as [token|]; [|intros H; destruct (Hrej _ _ [] _ H0 H)].
  destruct (ValidateJWT env token _) as [userID|];
    [|intros H; destruct (Hrej _ _ [] _ H0 H)].
  destruct (ParseMultipartForm_state env r maxMemory
              (emit (Println vid userID) (boot db0 fs0 tn0))) as [f Hf].
  pose proof (ParseMultipartForm_part env r maxMemory
                (emit (Println vid userID) (boot db0 fs0 tn0))) as Hpart.
  destruct (ParseMultipartForm env r maxMemory _) as [part σ1].
  cbn [fst snd] in Hf, Hpart. subst σ1.
  cbn [with_fs boot emit fs db videoThumbnails log app].
  destruct part as [[file contentType]|];
    [|intros H; destruct (Hrej _ _ _ _ (H1 vid userID) H)].
  pose proof (Hpart file contentType eq_refl) as Hform.
  destruct (io_ReadAll env file) as [imageData|] eqn:Hread;
    [|intros H; destruct (Hrej _ _ _ _ (H1 vid userID) H)].
  destruct (db_read_failure env); [intros H; destruct (Hrej _ _ _ _ (H1 vid userID) H)|].
  destruct (db0 !! vid) as [video|] eqn:Hget;
    [|intros H; destruct (Hrej _ _ _ _ (H1 vid userID) H)].
  destruct (negb _); [intros H; destruct (Hrej _ _ _ _ (H1 vid userID) H)|].
  unfold UpdateVideo_db.
  destruct (db_UpdateVideo env _) as [uerr|] eqn:Hupd; cbn;
    intros [H|[H|[H|[H|[]]]]]; try discriminate H;
    injection H as <- <-; exists video, file, contentType; cbn;
    repeat split; try assumption; try reflexivity; congruence.
Qed.

(** X13.  The in-memory thumbnail handler answers a caller who is not the
    owner of the record with one error response and leaves the thumbnail
    map and the record store unchanged. *)
Theorem inmemory_rejects_non_owner (cfg : apiConfig) (env : Env) (r : Request)
    (db0 : gmap UUID Video) (fs0 : gmap string (list byte)) (tn0 : gmap UUID thumbnail) :
  caller_is_not_owner cfg env r db0 ->
  let σ' := handlerUploadThumbnail_inmemory cfg env r (boot db0 fs0 tn0) in
  videoThumbnails σ' = tn0 /\ db σ' = db0
  /\ exists code msg, 400 <= code
       /\ List.filter is_response (log σ') = [RespondError code msg].
Proof.
  intros (id' & tok' & uid' & v' & H1 & H2 & H3 & H4 & H5) σ'. subst σ'.
  unfold handlerUploadThumbnail_inmemory, GetVideo. rewrite H1, H2, H3.
  assert (Hdone : forall code msg f, 400 <= code ->
    let σ' := respondWithError code msg
                (with_fs f (emit (Println id' uid') (boot db0 fs0 tn0))) in
    videoThumbnails σ' = tn0 /\ db σ' = db0
    /\ exists code msg, 400 <= code
         /\ List.filter is_response (log σ') = [RespondError code msg])
    by (intros code msg f Hc; cbn; split; [reflexivity|]; split; [reflexivity|];
        exists code, msg; split; [exact Hc | reflexivity]).
  destruct (ParseMultipartForm_state env r maxMemory
              (emit (Println id' uid') (boot db0 fs0 tn0))) as [f Hf].
  destruct (ParseMultipartForm env r maxMemory _) as [part σ1].
  cbn [snd] in Hf. subst σ1.
  destruct part as [[file contentType]|]; [|now apply Hdone].
  destruct (io_ReadAll env file) as [imageData|]; [|now apply Hdone].
  destruct (db_read_failure env); [now apply Hdone|].
  cbn [with_fs boot emit db]. rewrite H4.
  destruct (N.eqb_spec (UserID v') uid') as [Hown|Hown]; [contradiction|].
  cbn [negb]. now apply Hdone.
Qed.

End ThumbnailHandlers.

(* ===================================================================== *)
(** ** The further properties on concrete requests *)
(* ===================================================================== *)

Section UploadWitnesses.
Import GoLib Upload Reading Scenario.

Lemma persisted_reference_shape_witness :
  let σ' := snd (handlerUploadVideo cfg0 env_ok (request "owner-token" clip "video/mp4")
                   (boot db0 ∅ ∅)) in
  In (UpdateVideo (set_VideoURL video0 ("tubely," ++ key_mp4)) true) (log σ')
  /\ exists extension name orientation,
       String.length name = 43%nat /\ is_label orientation
       /\ VideoURL (set_VideoURL video0 ("tubely," ++ key_mp4))
          = Some ("tubely" ++ "," ++ orientation ++ "/" ++ name ++ "." ++ extension).
Proof.
  intros σ'.
  assert (Hin : In (UpdateVideo (set_VideoURL video0 ("tubely," ++ key_mp4)) true) (log σ'))
    by (vm_compute; tauto).
  split; [exact Hin|].
  destruct (persisted_reference_shape cfg0 env_ok _ db0 ∅ ∅ _ _ Hin)
    as (vid & video & file & ct & ext & name & o & output & Hid & Hget & _ & _ & Hlen & _
        & Hlabel & _ & Hv & _).
  exists ext, name, o. split; [exact Hlen|]. split; [exact Hlabel|].
  rewrite Hv. reflexivity.
Defined.

Lemma ok_response_means_stored_witness :
  let σ' := snd (handlerUploadVideo cfg0 env_ok (request "owner-token" clip "video/mp4")
                   (boot db0 ∅ ∅)) in
  let payload := set_VideoURL video0
       ("https://tubely.s3.amazonaws.com/" ++ key_mp4 ++ "?X-Amz-Expires=900") in
  In (RespondJSON 200 payload) (log σ')
  /\ exists v, In (UpdateVideo v true) (log σ') /\ db σ' !! ID v = Some v.
Proof.
  intros σ' payload.
  assert (Hin : In (RespondJSON 200 payload) (log σ')) by (vm_compute; tauto).
  split; [exact Hin|].
  destruct (ok_response_means_stored cfg0 env_ok _ db0 ∅ ∅ _ _ Hin)
    as (_ & v & ref & b & k & url & Hu & Hdb & _).
  exists v. auto.
Defined.

Lemma temporary_files_are_removed_witness :
  let σ' := snd (handlerUploadVideo cfg0 env_ok (request "owner-token" clip "video/mp4")
                   (boot db0 ∅ ∅)) in
  In (CreateTemp tmp) (log σ')
  /\ In (RunFfmpeg tmp (tmp ++ ".processing") true) (log σ')
  /\ fs σ' !! tmp = None
  /\ fs σ' !! (tmp ++ ".processing") = None.
Proof.
  intros σ'.
  assert (H1 : In (CreateTemp tmp) (log σ')) by (vm_compute; tauto).
  assert (H2 : In (RunFfmpeg tmp (tmp ++ ".processing") true) (log σ'))
    by (vm_compute; tauto).
  split; [exact H1|]. split; [exact H2|]. split.
  - exact (proj1 (temporary_files_are_removed cfg0 env_ok _ db0 ∅ ∅) _ H1).
  - exact (proj2 (temporary_files_are_removed cfg0 env_ok _ db0 ∅ ∅) _ _ H2).
Defined.

End UploadWitnesses.

(* ===================================================================== *)
(** ** The thumbnail handlers on concrete requests *)
(* ===================================================================== *)

Section ThumbnailWitnesses.
Import GoLib Thumbnail Reading ThumbScenario.

Lemma thumbnail_rejected_before_file_witness :
  (caller_is_not_owner cfg0 env_ok (request "stranger-token" Scenario.clip "image/png")
     Scenario.db0
   \/ media_type_is_not_image env_ok (request "stranger-token" Scenario.clip "image/png"))
  /\ (caller_is_not_owner cfg0 env_ok (request "owner-token" Scenario.clip "video/mp4")
        Scenario.db0
      \/ media_type_is_not_image env_ok (request "owner-token" Scenario.clip "video/mp4"))
  /\ fs (snd (handlerUploadThumbnail cfg0 env_ok
                (request "stranger-token" Scenario.clip "image/png")
                (boot Scenario.db0 ∅ ∅))) = ∅
  /\ fs (snd (handlerUploadThumbnail cfg0 env_ok
                (request "owner-token" Scenario.clip "video/mp4")
                (boot Scenario.db0 ∅ ∅))) = ∅.
Proof.
  assert (H1 : caller_is_not_owner cfg0 env_ok
                 (request "stranger-token" Scenario.clip "image/png") Scenario.db0
               \/ media_type_is_not_image env_ok
                    (request "stranger-token" Scenario.clip "image/png")).
  { left. exists Scenario.videoID, "stranger-token", Scenario.stranger, Scenario.video0.
    repeat split; discriminate. }
  assert (H2 : caller_is_not_owner cfg0 env_ok
                 (request "owner-token" Scenario.clip "video/mp4") Scenario.db0
               \/ media_type_is_not_image env_ok
                    (request "owner-token" Scenario.clip "video/mp4")).
  { right. exists Scenario.clip, "video/mp4". repeat split; discriminate. }
  assert (Hsize : Z.of_nat (length Scenario.clip) <= maxMemory) by discriminate.
  split; [exact H1|]. split; [exact H2|]. split.
  - exact (proj1 (proj2 (proj2 (proj2
             (thumbnail_rejected_before_file cfg0 env_ok _ Scenario.db0 ∅ ∅ H1))))
             Scenario.clip "image/png" eq_refl Hsize).
  - exact (proj1 (proj2 (proj2 (proj2
             (thumbnail_rejected_before_file cfg0 env_ok _ Scenario.db0 ∅ ∅ H2))))
             Scenario.clip "video/mp4" eq_refl Hsize).
Defined.

Lemma thumbnail_reference_shape_witness :
  let σ' := snd (handlerUploadThumbnail cfg0 env_ok
                   (request "owner-token" Scenario.clip "image/png")
                   (boot Scenario.db0 ∅ ∅)) in
  In (UpdateVideo (set_ThumbnailURL Scenario.video0 png_url) true) (log σ')
  /\ exists extension name,
       String.length name = 43%nat
       /\ ThumbnailURL (set_ThumbnailURL Scenario.video0 png_url)
          = Some ("http://localhost:" ++ port cfg0 ++ "/assets/" ++ name ++ "." ++ extension)
       /\ fs σ' !! filepath_Join env_ok (assetsRoot cfg0) (name ++ "." ++ extension)
          = Some Scenario.clip.
Proof.
  intros σ'.
  assert (Hin : In (UpdateVideo (set_ThumbnailURL Scenario.video0 png_url) true) (log σ'))
    by (vm_compute; tauto).
  split; [exact Hin|].
  destruct (thumbnail_reference_shape cfg0 env_ok _ Scenario.db0 ∅ ∅ _ _ Hin)
    as (vid & video & file & ct & ext & name & _ & _ & Hform & _ & Hlen & _ & Hv & Hfs & _).
  injection Hform as <- _.
  exists ext, name. split; [exact Hlen|]. split; [|exact Hfs].
  rewrite Hv. reflexivity.
Defined.

Lemma inmemory_update_outcome_is_ignored_witness :
  let σ' := handlerUploadThumbnail_inmemory cfg0 env_ok
              (request "owner-token" Scenario.clip "text/plain") (boot Scenario.db0 ∅ ∅) in
  let tn := {| data := Scenario.clip; mediaType := "text/plain" |} in
  In (StoreThumbnail Scenario.videoID tn) (log σ')
  /\ videoThumbnails σ' = <[Scenario.videoID := tn]> ∅.
Proof.
  intros σ' tn.
  assert (Hin : In (StoreThumbnail Scenario.videoID tn) (log σ')) by (vm_compute; tauto).
  split; [exact Hin|].
  destruct (inmemory_update_outcome_is_ignored cfg0 env_ok _ Scenario.db0 ∅ ∅ _ _ Hin)
    as (video & file & ct & _ & _ & _ & _ & Hmap & _).
  exact Hmap.
Defined.

Lemma inmemory_rejects_non_owner_witness :
  caller_is_not_owner cfg0 env_ok (request "stranger-token" Scenario.clip "image/png")
    Scenario.db0
  /\ videoThumbnails (handlerUploadThumbnail_inmemory cfg0 env_ok
                        (request "stranger-token" Scenario.clip "image/png")
                        (boot Scenario.db0 ∅ ∅)) = ∅.
Proof.
  assert (H1 : caller_is_not_owner cfg0 env_ok
                 (request "stranger-token" Scenario.clip "image/png") Scenario.db0).
  { exists Scenario.videoID, "stranger-token", Scenario.stranger, Scenario.video0.
    repeat split; discriminate. }
  split; [exact H1|].
  exact (proj1 (inmemory_rejects_non_owner cfg0 env_ok _ Scenario.db0 ∅ ∅ H1)).
Defined.

End ThumbnailWitnesses.
